(** * SecurityKit-Android signing scripts: a shallow embedding

    The three scripts under [scripts/] derive a key, hash an artifact and
    compute an HMAC-SHA256 tag over it:

    - [generate_apk_hmac.py]         digest-then-MAC over an APK file,
    - [sign_config_hmac.py]          direct MAC over a raw JSON config,
    - [generate_secure_signature.py] direct MAC with an identity-bound key.

    Python values are modelled as follows: [bytes] is a list of
    [Byte.byte]; [str] is a list of Unicode code points ([N]); [hashlib] and
    [hmac] objects are records holding exactly the state the library keeps
    (chaining value, pending block, byte count); exceptions are a sum type;
    the file system and [os.environ] are finite maps. *)

From Stdlib Require Import ZArith NArith List Lia Bool.
From Stdlib.Strings Require Import Byte Ascii String.
From stdpp Require Import base option list gmap.
From Equations Require Import Equations.
Import ListNotations.

Local Open Scope Z_scope.

(** ** Bytes and strings *)

Abbreviation bytes := (list byte).

#[global] Instance byte_eq_decision : EqDecision byte := Byte.byte_eq_dec.

Definition Z_of_byte (b : byte) : Z := Z.of_N (Byte.to_N b).

Definition byte_of_Z (z : Z) : byte :=
  match Byte.of_N (Z.to_N (z mod 256)) with
  | Some b => b
  | None => x00
  end.

(** A Python [str]: a sequence of code points. *)
Abbreviation pystr := (list N).

(** An ASCII literal of the source, as a [str]. *)
Definition lit (s : string) : pystr :=
  map (fun b => Byte.to_N b) (list_byte_of_string s).

(** [bytes] literal [b"..."] of the source. *)
Definition blit (s : string) : bytes := list_byte_of_string s.

(** ** SHA-256 (FIPS 180-4), the algorithm behind [hashlib.sha256] *)

Module SHA256.

Definition wmod : Z := 2 ^ 32.

Definition add32 (x y : Z) : Z := (x + y) mod wmod.

Definition rotr (n x : Z) : Z :=
  Z.lor (Z.shiftr x n) ((Z.shiftl x (32 - n)) mod wmod).

Definition shr (n x : Z) : Z := Z.shiftr x n.

Definition not32 (x : Z) : Z := Z.lxor x (wmod - 1).

Definition Ch (x y z : Z) : Z :=
  Z.lxor (Z.land x y) (Z.land (not32 x) z).

Definition Maj (x y z : Z) : Z :=
  Z.lxor (Z.lxor (Z.land x y) (Z.land x z)) (Z.land y z).

Definition Sigma0 (x : Z) : Z :=
  Z.lxor (Z.lxor (rotr 2 x) (rotr 13 x)) (rotr 22 x).

Definition Sigma1 (x : Z) : Z :=
  Z.lxor (Z.lxor (rotr 6 x) (rotr 11 x)) (rotr 25 x).

Definition sigma0 (x : Z) : Z :=
  Z.lxor (Z.lxor (rotr 7 x) (rotr 18 x)) (shr 3 x).

Definition sigma1 (x : Z) : Z :=
  Z.lxor (Z.lxor (rotr 17 x) (rotr 19 x)) (shr 10 x).

Definition K : list Z :=
  [ 0x428A2F98; 0x71374491; 0xB5C0FBCF; 0xE9B5DBA5;
    0x3956C25B; 0x59F111F1; 0x923F82A4; 0xAB1C5ED5;
    0xD807AA98; 0x12835B01; 0x243185BE; 0x550C7DC3;
    0x72BE5D74; 0x80DEB1FE; 0x9BDC06A7; 0xC19BF174;
    0xE49B69C1; 0xEFBE4786; 0x0FC19DC6; 0x240CA1CC;
    0x2DE92C6F; 0x4A7484AA; 0x5CB0A9DC; 0x76F988DA;
    0x983E5152; 0xA831C66D; 0xB00327C8; 0xBF597FC7;
    0xC6E00BF3; 0xD5A79147; 0x06CA6351; 0x14292967;
    0x27B70A85; 0x2E1B2138; 0x4D2C6DFC; 0x53380D13;
    0x650A7354; 0x766A0ABB; 0x81C2C92E; 0x92722C85;
    0xA2BFE8A1; 0xA81A664B; 0xC24B8B70; 0xC76C51A3;
    0xD192E819; 0xD6990624; 0xF40E3585; 0x106AA070;
    0x19A4C116; 0x1E376C08; 0x2748774C; 0x34B0BCB5;
    0x391C0CB3; 0x4ED8AA4A; 0x5B9CCA4F; 0x682E6FF3;
    0x748F82EE; 0x78A5636F; 0x84C87814; 0x8CC70208;
    0x90BEFFFA; 0xA4506CEB; 0xBEF9A3F7; 0xC67178F2 ].

(** The eight working registers / chaining value. *)
Record regs : Type := Regs {
  ra : Z; rb : Z; rc : Z; rd : Z; re : Z; rf : Z; rg : Z; rh : Z
}.

Definition H0 : regs :=
  Regs 0x6A09E667 0xBB67AE85 0x3C6EF372 0xA54FF53A
       0x510E527F 0x9B05688C 0x1F83D9AB 0x5BE0CD19.

(** Big-endian 32-bit words of a block. *)
Fixpoint words_of_bytes (l : bytes) : list Z :=
  match l with
  | b0 :: b1 :: b2 :: b3 :: t =>
      (Z.shiftl (Z_of_byte b0) 24 + Z.shiftl (Z_of_byte b1) 16
       + Z.shiftl (Z_of_byte b2) 8 + Z_of_byte b3) :: words_of_bytes t
  | _ => []
  end.

Definition bytes_of_word (w : Z) : bytes :=
  [ byte_of_Z (Z.shiftr w 24); byte_of_Z (Z.shiftr w 16);
    byte_of_Z (Z.shiftr w 8); byte_of_Z w ].

(** Message schedule: [n] further words appended to the [W] built so far. *)
Fixpoint schedule (n : nat) (W : list Z) : list Z :=
  match n with
  | O => W
  | S n' =>
      let t := length W in
      let w := add32 (add32 (sigma1 (nth (t - 2) W 0)) (nth (t - 7) W 0))
                     (add32 (sigma0 (nth (t - 15) W 0)) (nth (t - 16) W 0)) in
      schedule n' (W ++ [w])
  end.

Definition round (r : regs) (kw : Z * Z) : regs :=
  let '(k, w) := kw in
  let T1 := add32 (add32 (add32 (rh r) (Sigma1 (re r)))
                         (add32 (Ch (re r) (rf r) (rg r)) k)) w in
  let T2 := add32 (Sigma0 (ra r)) (Maj (ra r) (rb r) (rc r)) in
  Regs (add32 T1 T2) (ra r) (rb r) (rc r) (add32 (rd r) T1) (re r) (rf r) (rg r).

(** One application of the compression function to a 64-byte block. *)
Definition compress (h : regs) (block : bytes) : regs :=
  let W := schedule 48 (words_of_bytes block) in
  let r := fold_left round (combine K W) h in
  Regs (add32 (ra h) (ra r)) (add32 (rb h) (rb r))
       (add32 (rc h) (rc r)) (add32 (rd h) (rd r))
       (add32 (re h) (re r)) (add32 (rf h) (rf r))
       (add32 (rg h) (rg r)) (add32 (rh h) (rh r)).

(** Feed the first [n] 64-byte blocks of [data] to the compression
    function. *)
Fixpoint hash_blocks (n : nat) (h : regs) (data : bytes) : regs :=
  match n with
  | O => h
  | S n' => hash_blocks n' (compress h (firstn 64 data)) (skipn 64 data)
  end.

(** Padding for a message of [len] bytes: 0x80, zeros up to 56 mod 64,
    then the bit length as a 64-bit big-endian integer. *)
Definition length_field (len : nat) : bytes :=
  let bits := (8 * Z.of_nat len) mod 2 ^ 64 in
  bytes_of_word (Z.shiftr bits 32) ++ bytes_of_word bits.

Definition padding (len : nat) : bytes :=
  x80 :: repeat x00 ((119 - len mod 64) mod 64)%nat ++ length_field len.

Definition serialize (h : regs) : bytes :=
  bytes_of_word (ra h) ++ bytes_of_word (rb h) ++ bytes_of_word (rc h)
  ++ bytes_of_word (rd h) ++ bytes_of_word (re h) ++ bytes_of_word (rf h)
  ++ bytes_of_word (rg h) ++ bytes_of_word (rh h).

(** The digest of a whole message, hashed in one step. *)
Definition hash (msg : bytes) : bytes :=
  let padded := msg ++ padding (length msg) in
  serialize (hash_blocks (length padded / 64) H0 padded).

(** *** The hash object of [hashlib]

    [hashlib.sha256()] returns an object that keeps the chaining value,
    the bytes of the block not yet complete and the count of bytes fed
    so far.  [update] compresses every block that became complete;
    [digest] pads a copy of the state and leaves the object untouched. *)
Record obj : Type := Obj {
  o_h : regs;
  o_buf : bytes;
  o_len : nat
}.

Definition new : obj := Obj H0 [] 0.

Definition update (o : obj) (data : bytes) : obj :=
  let pending := o_buf o ++ data in
  let n := (length pending / 64)%nat in
  Obj (hash_blocks n (o_h o) pending)
      (skipn (64 * n) pending)
      (o_len o + length data).

Definition digest (o : obj) : bytes :=
  let final := o_buf o ++ padding (o_len o) in
  serialize (hash_blocks (length final / 64) (o_h o) final).

Definition block_size : nat := 64.

End SHA256.

(** ** Hex encoding ([bytes.hex()], [hexdigest()]) *)

Definition hex_digit (z : Z) : N :=
  if z <? 10 then Z.to_N (48 + z) else Z.to_N (87 + z).

Definition hex_of_byte (b : byte) : pystr :=
  [ hex_digit (Z.shiftr (Z_of_byte b) 4); hex_digit (Z.land (Z_of_byte b) 15) ].

Definition hex (l : bytes) : pystr := concat (map hex_of_byte l).

Definition sha256_hexdigest (o : SHA256.obj) : pystr := hex (SHA256.digest o).


(** ** HMAC over SHA-256, as [hmac.new(key, msg, hashlib.sha256)]

    CPython's [hmac] object keeps two SHA-256 objects.  A key longer than
    the block size is first hashed; the key is then zero-padded to the block
    size ([ljust]) and XORed with 0x5C for the outer and 0x36 for the inner
    object; the message goes to the inner one. *)

Module HMAC.

Record obj : Type := Obj {
  inner : SHA256.obj;
  outer : SHA256.obj
}.

Definition translate (x : Z) (k : bytes) : bytes :=
  map (fun b => byte_of_Z (Z.lxor (Z_of_byte b) x)) k.

Definition ljust (k : bytes) (width : nat) : bytes :=
  k ++ repeat x00 (width - length k).

Definition new (key msg : bytes) : obj :=
  let key :=
    if (SHA256.block_size <? length key)%nat
    then SHA256.digest (SHA256.update SHA256.new key)
    else key in
  let key := ljust key SHA256.block_size in
  Obj (SHA256.update (SHA256.update SHA256.new (translate 0x36 key)) msg)
      (SHA256.update SHA256.new (translate 0x5C key)).

Definition digest (o : obj) : bytes :=
  SHA256.digest (SHA256.update (outer o) (SHA256.digest (inner o))).

Definition hexdigest (o : obj) : pystr := hex (digest o).

(** HMAC-SHA256 as RFC 2104 writes it, over the one-step hash. *)
Definition mac (key msg : bytes) : bytes :=
  let k0 := if (64 <? length key)%nat then SHA256.hash key else key in
  let k := k0 ++ repeat x00 (64 - length k0) in
  SHA256.hash (translate 0x5C k ++ SHA256.hash (translate 0x36 k ++ msg)).

End HMAC.

(** ** [str.encode('utf-8')]

    Strict UTF-8: lone surrogates (and values that are no code point) are
    refused, which Python reports as [UnicodeEncodeError]. *)

Definition cont (c : N) : byte := byte_of_Z (Z.of_N (N.lor 0x80 (N.land c 0x3F))).

Definition utf8_encode_cp (c : N) : option bytes :=
  if (c <? 0x80)%N then Some [byte_of_Z (Z.of_N c)]
  else if (c <? 0x800)%N then
    Some [byte_of_Z (Z.of_N (N.lor 0xC0 (N.shiftr c 6))); cont c]
  else if (c <? 0x10000)%N then
    if ((0xD800 <=? c) && (c <=? 0xDFFF))%N then None
    else Some [byte_of_Z (Z.of_N (N.lor 0xE0 (N.shiftr c 12)));
               cont (N.shiftr c 6); cont c]
  else if (c <? 0x110000)%N then
    Some [byte_of_Z (Z.of_N (N.lor 0xF0 (N.shiftr c 18)));
          cont (N.shiftr c 12); cont (N.shiftr c 6); cont c]
  else None.

Fixpoint utf8_encode (s : pystr) : option bytes :=
  match s with
  | [] => Some []
  | c :: t =>
      match utf8_encode_cp c, utf8_encode t with
      | Some a, Some b => Some (a ++ b)
      | _, _ => None
      end
  end.

(** ** Other built-ins the scripts use *)

(** [bytes.strip()] with no argument: ASCII whitespace is removed at both
    ends. *)
Definition is_space (b : byte) : bool :=
  match b with
  | x20 | x09 | x0a | x0b | x0c | x0d => true
  | _ => false
  end.

Fixpoint lstrip (l : bytes) : bytes :=
  match l with
  | [] => []
  | b :: t => if is_space b then lstrip t else l
  end.

Definition rstrip (l : bytes) : bytes := rev (lstrip (rev l)).

Definition strip (l : bytes) : bytes := rstrip (lstrip l).

(** [s.endswith(suffix)] *)
Definition endswith (s suffix : pystr) : bool :=
  (length suffix <=? length s)%nat
  && bool_decide (skipn (length s - length suffix) s = suffix).

(** [str(n)] for an [int]. *)
Fixpoint digits_of_uint (d : Decimal.uint) : pystr :=
  match d with
  | Decimal.Nil => []
  | Decimal.D0 d => 48%N :: digits_of_uint d
  | Decimal.D1 d => 49%N :: digits_of_uint d
  | Decimal.D2 d => 50%N :: digits_of_uint d
  | Decimal.D3 d => 51%N :: digits_of_uint d
  | Decimal.D4 d => 52%N :: digits_of_uint d
  | Decimal.D5 d => 53%N :: digits_of_uint d
  | Decimal.D6 d => 54%N :: digits_of_uint d
  | Decimal.D7 d => 55%N :: digits_of_uint d
  | Decimal.D8 d => 56%N :: digits_of_uint d
  | Decimal.D9 d => 57%N :: digits_of_uint d
  end.

Definition str_of_int (z : Z) : pystr :=
  match z with
  | Z0 => [48%N]
  | Zpos p => digits_of_uint (Pos.to_uint p)
  | Zneg p => 45%N :: digits_of_uint (Pos.to_uint p)
  end.

(** [a == b] on [str].  CPython first compares the lengths and then the
    code units from the left, stopping at the first difference.
    [str_eq_steps] is the number of code units it looks at. *)
Fixpoint scan_eq (a b : pystr) : bool :=
  match a, b with
  | [], [] => true
  | x :: a', y :: b' => if (x =? y)%N then scan_eq a' b' else false
  | _, _ => false
  end.


Definition str_eq (a b : pystr) : bool :=
  (length a =? length b)%nat && scan_eq a b.


(** [data.replace(old, new)] on [bytes] with a non-empty [old]: occurrences
    are replaced from the left and do not overlap.  [skip] counts the bytes
    of a match still to be dropped. *)
Definition starts_with (l p : bytes) : bool :=
  bool_decide (firstn (length p) l = p).

Fixpoint replace_from (old new : bytes) (skip : nat) (l : bytes) : bytes :=
  match l with
  | [] => []
  | b :: t =>
      match skip with
      | S k => replace_from old new k t
      | O =>
          if starts_with l old
          then new ++ replace_from old new (length old - 1) t
          else b :: replace_from old new 0 t
      end
  end.

Definition bytes_replace (data old new : bytes) : bytes :=
  replace_from old new 0 data.

(** ** [json.dump(obj, f, indent=2)] for a flat [dict]

    The values the scripts store are [str] and [int].  A [dict] keeps its
    insertion order, so it is modelled as an association list.  Strings are
    written with [ensure_ascii]: everything outside [' ' .. '~'] is escaped. *)

Inductive jvalue : Type :=
| JStr (s : pystr)
| JInt (z : Z).

Abbreviation pydict := (list (list N * jvalue)).

Definition hex4 (n : N) : pystr :=
  [ hex_digit (Z.land (Z.shiftr (Z.of_N n) 12) 15);
    hex_digit (Z.land (Z.shiftr (Z.of_N n) 8) 15);
    hex_digit (Z.land (Z.shiftr (Z.of_N n) 4) 15);
    hex_digit (Z.land (Z.of_N n) 15) ].

Definition json_escape_cp (c : N) : pystr :=
  if (c =? 0x22)%N then [0x5C; 0x22]%N
  else if (c =? 0x5C)%N then lit "\\"
  else if ((0x20 <=? c) && (c <=? 0x7E))%N then [c]
  else if (c =? 0x0A)%N then lit "\n"
  else if (c =? 0x0D)%N then lit "\r"
  else if (c =? 0x09)%N then lit "\t"
  else if (c =? 0x08)%N then lit "\b"
  else if (c =? 0x0C)%N then lit "\f"
  else if (c <? 0x10000)%N then lit "\u" ++ hex4 c
  else
    let n := (c - 0x10000)%N in
    lit "\u" ++ hex4 (N.lor 0xD800 (N.land (N.shiftr n 10) 0x3FF))
    ++ lit "\u" ++ hex4 (N.lor 0xDC00 (N.land n 0x3FF)).

Definition json_str (s : pystr) : pystr :=
  [0x22%N] ++ concat (map json_escape_cp s) ++ [0x22%N].

Definition json_value (v : jvalue) : pystr :=
  match v with
  | JStr s => json_str s
  | JInt z => str_of_int z
  end.

Definition json_item (kv : pystr * jvalue) : pystr :=
  json_str (fst kv) ++ lit ": " ++ json_value (snd kv).

Fixpoint json_items (l : pydict) : pystr :=
  match l with
  | [] => []
  | [kv] => [10%N] ++ lit "  " ++ json_item kv
  | kv :: t => [10%N] ++ lit "  " ++ json_item kv ++ lit "," ++ json_items t
  end.

Definition json_dumps (d : pydict) : pystr :=
  match d with
  | [] => lit "{}"
  | _ => lit "{" ++ json_items d ++ [10%N] ++ lit "}"
  end.


(** ** Exceptions, the process state, and a state-and-exception monad *)

Inductive exn : Type :=
| SystemExit (code : Z)
| FileNotFoundError (path : pystr)
| UnicodeEncodeError
| TypeError.

Inductive result (A : Type) : Type :=
| Ok (a : A)
| Raise (e : exn).
Arguments Ok {A} a.
Arguments Raise {A} e.

(** What the interpreter's host tells the scripts: [platform] values and
    [pathlib]'s view of a path. *)
Record host : Type := Host {
  platform_system : pystr;
  platform_machine : pystr;
  platform_node : pystr;
  path_name : pystr -> pystr;
  path_stem : pystr -> pystr;
  path_absolute : pystr -> pystr
}.

Record world : Type := World {
  w_fs : gmap pystr bytes;
  w_environ : gmap pystr pystr;
  w_stdout : list pystr;
  w_stderr : list pystr;
  w_clock : nat -> Z;
  w_ticks : nat;
  w_random : nat -> byte;
  w_drawn : nat;
  w_host : host
}.

Definition M (A : Type) : Type := world -> result A * world.

Definition ret {A} (a : A) : M A := fun w => (Ok a, w).

Definition bind {A B} (c : M A) (k : A -> M B) : M B :=
  fun w =>
    match c w with
    | (Ok a, w') => k a w'
    | (Raise e, w') => (Raise e, w')
    end.

Definition raise {A} (e : exn) : M A := fun w => (Raise e, w).

Notation "x <- c1 ;; c2" := (bind c1 (fun x => c2))
  (at level 100, c1 at next level, right associativity).
Notation "c1 ;; c2" := (bind c1 (fun _ => c2))
  (at level 100, right associativity).

(** [try: body except Exception as e: handler]. [SystemExit] is no
    [Exception] and passes through. *)
Definition try_except {A} (body : M A) (handler : exn -> M A) : M A :=
  fun w =>
    match body w with
    | (Raise (SystemExit c), w') => (Raise (SystemExit c), w')
    | (Raise e, w') => handler e w'
    | (Ok a, w') => (Ok a, w')
    end.

(** The exit status the shell sees. *)
Definition exit_status {A} (r : result A) : Z :=
  match r with
  | Ok _ => 0
  | Raise (SystemExit c) => c
  | Raise _ => 1
  end.

Definition sys_exit {A} (code : Z) : M A := raise (SystemExit code).

Definition print (s : pystr) : M unit :=
  fun w => (Ok tt, World (w_fs w) (w_environ w) (w_stdout w ++ [s]) (w_stderr w)
                         (w_clock w) (w_ticks w) (w_random w) (w_drawn w) (w_host w)).

Definition print_stderr (s : pystr) : M unit :=
  fun w => (Ok tt, World (w_fs w) (w_environ w) (w_stdout w) (w_stderr w ++ [s])
                         (w_clock w) (w_ticks w) (w_random w) (w_drawn w) (w_host w)).

Definition set_file (path : pystr) (content : bytes) (w : world) : world :=
  World (<[path := content]> (w_fs w)) (w_environ w) (w_stdout w) (w_stderr w)
        (w_clock w) (w_ticks w) (w_random w) (w_drawn w) (w_host w).

(** [s.encode('utf-8')] *)
Definition encode (s : pystr) : M bytes :=
  match utf8_encode s with
  | Some b => ret b
  | None => raise UnicodeEncodeError
  end.

(** [open(path, "rb")]: the bytes still to be read from the new handle;
    [FileNotFoundError] when there is no such file. *)
Definition open_rb (path : pystr) : M bytes :=
  fun w =>
    match w_fs w !! path with
    | Some content => (Ok content, w)
    | None => (Raise (FileNotFoundError path), w)
    end.

(** [f.read(n)] on a handle with [rest] still unread: the chunk and what
    is left. *)
Definition file_read (n : nat) (rest : bytes) : bytes * bytes :=
  (firstn n rest, skipn n rest).

(** [with open(path, "w") as f: f.write(text)]: opening truncates the file,
    writing encodes the text.  The file system is a flat map from paths to
    contents in which every path can be created; the text the scripts write
    is ASCII, so the encoding of the handle does not matter. *)
Definition write_text (path : pystr) (text : pystr) : M unit :=
  fun w =>
    let w0 := set_file path [] w in
    match utf8_encode text with
    | Some b => (Ok tt, set_file path b w)
    | None => (Raise UnicodeEncodeError, w0)
    end.

Definition os_path_exists (path : pystr) : M bool :=
  fun w => (Ok (bool_decide (is_Some (w_fs w !! path))), w).

Definition os_environ_get (name : pystr) : M (option pystr) :=
  fun w => (Ok (w_environ w !! name), w).

(** [int(time.time())] *)
Definition time_time : M Z :=
  fun w => (Ok (w_clock w (w_ticks w)),
            World (w_fs w) (w_environ w) (w_stdout w) (w_stderr w)
                  (w_clock w) (S (w_ticks w)) (w_random w) (w_drawn w) (w_host w)).

(** [secrets.token_hex(n)]: [n] fresh random bytes, in hex. *)
Definition token_hex (n : nat) : M pystr :=
  fun w => (Ok (hex (map (w_random w) (seq (w_drawn w) n))),
            World (w_fs w) (w_environ w) (w_stdout w) (w_stderr w)
                  (w_clock w) (w_ticks w) (w_random w) (w_drawn w + n) (w_host w)).

Definition get_host : M host := fun w => (Ok (w_host w), w).

Definition inspect {A} (a : A) : {b : A | a = b} := exist _ a eq_refl.

(** ** scripts/generate_apk_hmac.py

    Console output of this script is progress reporting only and is left
    out of the model; file reads and writes, exceptions and the exit path
    are kept. *)

Module GenerateApkHmac.

Definition generate_secure_key : M bytes :=
  h <- get_host ;;
  let device_info :=
    platform_system h ++ lit "_" ++ platform_machine h ++ lit "_"
    ++ platform_node h in
  random_data <- token_hex 32 ;;
  now <- time_time ;;
  let combined :=
    device_info ++ lit "_" ++ random_data ++ lit "_" ++ str_of_int now in
  data <- encode combined ;;
  ret (SHA256.digest (SHA256.update SHA256.new data)).

(** [for chunk in iter(lambda: f.read(size), b""): sha256_hash.update(chunk)]
    on a handle with [rest] still unread.  The loop ends at the first
    empty chunk. *)
Equations? read_chunks (size : nat) (sha256_hash : SHA256.obj) (rest : bytes)
  : SHA256.obj by wf (length rest) lt :=
  read_chunks size sha256_hash rest with inspect (file_read size rest) := {
    | exist _ ([], _) _ => sha256_hash
    | exist _ (b :: chunk, rest') _ =>
        read_chunks size (SHA256.update sha256_hash (b :: chunk)) rest' }.
Proof.
  match goal with H : firstn _ _ = _ :: _ |- _ => rename H into Hchunk end.
  destruct size as [|size]; [discriminate|].
  destruct rest as [|x rest]; [discriminate|].
  rewrite length_skipn. simpl. lia.
Qed.

Definition chunk_size : nat := N.to_nat 8192.

Definition calculate_apk_hash (apk_path : pystr) : M pystr :=
  f <- open_rb apk_path ;;
  ret (sha256_hexdigest (read_chunks chunk_size SHA256.new f)).

Definition generate_hmac_signature (apk_path : pystr) (key : bytes)
  : M (pystr * pystr) :=
  apk_hash <- calculate_apk_hash apk_path ;;
  message <- encode apk_hash ;;
  let hmac_signature := HMAC.hexdigest (HMAC.new key message) in
  ret (hmac_signature, apk_hash).

Definition create_signature_data (apk_path hmac_signature apk_hash key_type : pystr)
  : M pydict :=
  h <- get_host ;;
  now <- time_time ;;
  ret [ (lit "apk_file", JStr (path_name h apk_path));
        (lit "apk_path", JStr (path_absolute h apk_path));
        (lit "apk_hash", JStr apk_hash);
        (lit "hmac_signature", JStr hmac_signature);
        (lit "key_type", JStr key_type);
        (lit "timestamp", JInt now);
        (lit "algorithm", JStr (lit "HMAC-SHA256"));
        (lit "hash_algorithm", JStr (lit "SHA-256"));
        (lit "version", JStr (lit "1.0.0")) ].

Definition save_signature_data (signature_data : pydict) (output_path : pystr)
  : M unit :=
  write_text output_path (json_dumps signature_data).

Definition save_signature_only (hmac_signature output_path : pystr) : M unit :=
  write_text output_path hmac_signature.

Definition main (argv : list pystr) : M unit :=
  if (length argv <? 2)%nat then sys_exit 1
  else
    let apk_path := nth 1 argv [] in
    found <- os_path_exists apk_path ;;
    if negb found then sys_exit 1
    else
      output_path <-
        (if (3 <=? length argv)%nat then ret (nth 2 argv [])
         else
           h <- get_host ;;
           ret (path_stem h apk_path ++ lit "_hmac_signature.txt")) ;;
      try_except
        (key <- generate_secure_key ;;
         apk_hash <- calculate_apk_hash apk_path ;;
         sig_hash <- generate_hmac_signature apk_path key ;;
         let hmac_signature := fst sig_hash in
         let apk_hash := snd sig_hash in
         signature_data <-
           create_signature_data apk_path hmac_signature apk_hash (lit "software") ;;
         (if endswith output_path (lit ".json")
          then save_signature_data signature_data output_path
          else save_signature_only hmac_signature output_path))
        (fun e => sys_exit 1).

End GenerateApkHmac.

(** ** scripts/sign_config_hmac.py *)

Module SignConfigHmac.

Definition hmac_sha256_hex (data key : bytes) : pystr :=
  HMAC.hexdigest (HMAC.new key data).

(** The namespace [parser.parse_args()] returns.  [argparse] itself is not
    modelled; its mutually exclusive, required group leaves exactly one of
    [key], [key_env], [key_file] different from [None]. *)
Record args : Type := Args {
  config : pystr;
  key : option pystr;
  key_env : option pystr;
  key_file : option pystr;
  out : option pystr
}.

(** Truth value of [args.out]: [None] and the empty string are false. *)
Definition truthy (s : option pystr) : bool :=
  match s with
  | Some (_ :: _) => true
  | _ => false
  end.

(** The [# Load key] part of [main]. *)
Definition load_key (a : args) : M bytes :=
  match key a with
  | Some k => encode k
  | None =>
      match key_env a with
      | Some name =>
          val <- os_environ_get name ;;
          if negb (truthy val) then
            print_stderr (lit "Environment variable " ++ name
                          ++ lit " is empty or not set") ;;
            sys_exit 2
          else encode (default [] val)
      | None =>
          match key_file a with
          | Some path =>
              f <- open_rb path ;;
              ret (strip f)
          | None => raise TypeError
          end
      end
  end.

Definition main (a : args) : M unit :=
  key <- load_key a ;;
  raw <- open_rb (config a) ;;
  let sig := hmac_sha256_hex raw key in
  if truthy (out a) then
    write_text (default [] (out a)) sig ;;
    print (default [] (out a))
  else print sig.

End SignConfigHmac.

(** ** scripts/generate_secure_signature.py

    Console output is left out here as well; the two checks of [main] end
    the process with status 1 when they fail. *)

Module GenerateSecureSignature.

(** [f"{device_id}:{package_name}:SecurityModule:HMAC"] *)
Definition binding_data (device_id package_name : pystr) : pystr :=
  device_id ++ lit ":" ++ package_name ++ lit ":SecurityModule:HMAC".

Definition generate_device_bound_key_simulation (device_id package_name : pystr)
  : M bytes :=
  data <- encode (binding_data device_id package_name) ;;
  ret (SHA256.digest (SHA256.update SHA256.new data)).

Definition compute_hmac_sha256 (data key : bytes) : pystr :=
  HMAC.hexdigest (HMAC.new key data).

Definition config_path : pystr :=
  lit "security-sample/src/main/assets/security_config.json".
Definition signature_path : pystr :=
  lit "security-sample/src/main/assets/security_config.sig".
Definition device_id : pystr := lit "test_device_12345".
Definition package_name : pystr := lit "com.miaadrajabi.securitysample".

(** The [# Verify signature] step: [signature == expected_signature]. *)
Definition verify (signature expected_signature : pystr) : bool :=
  str_eq signature expected_signature.


Definition main : M unit :=
  try_except
    (config_data <- open_rb config_path ;;
     device_key <- generate_device_bound_key_simulation device_id package_name ;;
     let signature := compute_hmac_sha256 config_data device_key in
     write_text signature_path signature ;;
     let expected_signature := compute_hmac_sha256 config_data device_key in
     (if verify signature expected_signature then ret tt else sys_exit 1) ;;
     let tampered_data :=
       bytes_replace config_data
         (x22 :: blit "rootDetection" ++ x22 :: blit ": true")
         (x22 :: blit "rootDetection" ++ x22 :: blit ": false") in
     let tampered_signature := compute_hmac_sha256 tampered_data device_key in
     if negb (str_eq tampered_signature signature) then ret tt else sys_exit 1)
    (fun e => sys_exit 1).

End GenerateSecureSignature.

(** ** Vocabulary of the specification *)

Definition is_lower_hex (c : N) : bool :=
  ((48 <=? c) && (c <=? 57) || (97 <=? c) && (c <=? 102))%N.

Definition is_ascii (c : N) : bool := (c <? 128)%N.

(** The bytes of an ASCII text. *)
Definition ascii_bytes (s : pystr) : bytes := map (fun c => byte_of_Z (Z.of_N c)) s.

(** Unicode scalar values: code points that are not surrogates. *)
Definition is_scalar (c : N) : bool :=
  ((c <? 0xD800) || (0xDFFF <? c) && (c <? 0x110000))%N.

(** The two message profiles of the specification, over the one-step hash
    and RFC 2104 HMAC. *)
Definition digest_then_mac (key data : bytes) : option pystr :=
  match utf8_encode (hex (SHA256.hash data)) with
  | Some message => Some (hex (HMAC.mac key message))
  | None => None
  end.

Definition direct_mac (key data : bytes) : pystr := hex (HMAC.mac key data).




(** The world after [generate_secure_key]: one clock reading and 32 random
    bytes were consumed. *)
Definition after_key (w : world) : world :=
  World (w_fs w) (w_environ w) (w_stdout w) (w_stderr w)
        (w_clock w) (S (w_ticks w)) (w_random w) (w_drawn w + 32) (w_host w).

(** ** Sample inputs *)

Module Sample.

Definition the_host : host :=
  Host (lit "Linux") (lit "x86_64") (lit "buildbox")
       (fun p => p)
       (fun p => if bool_decide (p = lit "app.apk") then lit "app" else p)
       (fun p => lit "/work/" ++ p).

Definition clock (n : nat) : Z := 1700000000 + Z.of_nat n.
Definition random (n : nat) : byte := byte_of_Z (7 * Z.of_nat n + 1).

Definition world_with (fs : gmap pystr bytes) (env : gmap pystr pystr) : world :=
  World fs env [] [] clock 0 random 0 the_host.

Definition apk_world : world :=
  world_with {[ lit "app.apk" := blit "hello world" ]} ∅.

Definition config_bytes : bytes :=
  blit "{" ++ x22 :: blit "rootDetection" ++ x22 :: blit ": true}".

(** A config, a key file with a leading blank, a key file holding only
    a newline, and an environment with an empty variable. *)
Definition config_world : world :=
  world_with
    {[ lit "cfg.json" := config_bytes;
       lit "key.txt" := x20 :: blit "k1" ++ [x0a];
       lit "blank.txt" := [x0a] ]}
    {[ lit "EMPTY" := [] ; lit "CONFIG_HMAC_KEY" := lit "mysecret" ]}.

Definition args_literal (k : pystr) : SignConfigHmac.args :=
  SignConfigHmac.Args (lit "cfg.json") (Some k) None None None.

Definition args_env (name : pystr) : SignConfigHmac.args :=
  SignConfigHmac.Args (lit "cfg.json") None (Some name) None None.

Definition args_file (path : pystr) : SignConfigHmac.args :=
  SignConfigHmac.Args (lit "cfg.json") None None (Some path) None.

End Sample.

(** ** Vocabulary for properties of whole runs *)

(** [w'] differs from [w] in no file but [out], and keeps the environment
    and the host. *)
Definition same_files_except (out : pystr) (w w' : world) : Prop :=
  (forall p : pystr, p <> out -> w_fs w' !! p = w_fs w !! p)
  /\ w_environ w' = w_environ w
  /\ w_host w' = w_host w.

(** A computation that writes to no file but [out]. *)
Definition frames (out : pystr) {A} (c : M A) : Prop :=
  forall w : world, same_files_except out w (snd (c w)).

(** A computation whose only [SystemExit] codes are those in [codes]. *)
Definition exits_only (codes : Z -> Prop) {A} (c : M A) : Prop :=
  forall (w : world) (n : Z), fst (c w) = Raise (SystemExit n) -> codes n.

(** The output path [main] of [generate_apk_hmac.py] settles on. *)
Definition output_path_of (argv : list pystr) (w : world) : pystr :=
  if (3 <=? length argv)%nat then nth 2 argv []
  else path_stem (w_host w) (nth 1 argv []) ++ lit "_hmac_signature.txt".



(** The text [generate_secure_key] hashes:
    [f"{device_info}_{random_data}_{int(time.time())}"]. *)
Definition key_seed (w : world) : pystr :=
  (platform_system (w_host w) ++ lit "_" ++ platform_machine (w_host w)
   ++ lit "_" ++ platform_node (w_host w))
  ++ lit "_" ++ hex (map (w_random w) (seq (w_drawn w) 32))
  ++ lit "_" ++ str_of_int (w_clock w (w_ticks w)).

(** What [main] of [sign_config_hmac.py] does after the key is loaded. *)
Definition sign_with (a : SignConfigHmac.args) (key : bytes) : M unit :=
  raw <- open_rb (SignConfigHmac.config a) ;;
  let sig := SignConfigHmac.hmac_sha256_hex raw key in
  if SignConfigHmac.truthy (SignConfigHmac.out a) then
    write_text (default [] (SignConfigHmac.out a)) sig ;;
    print (default [] (SignConfigHmac.out a))
  else print sig.

(** The key [main] of [generate_secure_signature.py] derives from its
    fixed device id and package name. *)
Definition device_key : bytes :=
  SHA256.hash
    (blit "test_device_12345:com.miaadrajabi.securitysample:SecurityModule:HMAC").

(** The chunks the read loop of [calculate_apk_hash] gets from [f.read(size)],
    in order, up to the empty one that ends the loop. *)
Equations? chunks (size : nat) (rest : bytes) : list bytes
  by wf (length rest) lt :=
  chunks size rest with inspect (file_read size rest) := {
    | exist _ ([], _) _ => []
    | exist _ (b :: chunk, rest') _ => (b :: chunk) :: chunks size rest' }.
Proof.
  match goal with H : firstn _ _ = _ :: _ |- _ => rename H into Hchunk end.
  destruct size as [|size]; [discriminate|].
  destruct rest as [|x rest]; [discriminate|].
  rewrite length_skipn. simpl. lia.
Qed.

(** * Properties *)

(** ** Test vectors for the library models *)

Example sha256_abc :
  hex (SHA256.hash (blit "abc"))
  = lit "ba7816bf8f01cfea414140de5dae2223b00361a396177a9cb410ff61f20015ad".
Proof. vm_compute. reflexivity. Qed.

Example sha256_hello_world :
  hex (SHA256.hash (blit "hello world"))
  = lit "b94d27b9934d3e08a52e52d7da7dabfac484efe37a5380ee9088f7ace2efcde9".
Proof. vm_compute. reflexivity. Qed.

Example sha256_two_blocks :
  hex (SHA256.hash (blit "abcdbcdecdefdefgefghfghighijhijkijkljklmklmnlmnomnopnopq"))
  = lit "248d6a61d20638b8e5c026930c3e6039a33ce45964ff2167f6ecedd419db06c1".
Proof. vm_compute. reflexivity. Qed.

Example sha256_obj_split :
  sha256_hexdigest
    (SHA256.update (SHA256.update SHA256.new (blit "hello ")) (blit "world"))
  = lit "b94d27b9934d3e08a52e52d7da7dabfac484efe37a5380ee9088f7ace2efcde9".
Proof. vm_compute. reflexivity. Qed.

Example hmac_rfc4231_case2 :
  HMAC.hexdigest (HMAC.new (blit "Jefe") (blit "what do ya want for nothing?"))
  = lit "5bdcc146bf60754e6a042426089575c75a003f089d2739839dec58b964ec3843".
Proof. vm_compute. reflexivity. Qed.

Example hmac_rfc4231_case6 :
  HMAC.hexdigest
    (HMAC.new (repeat xaa 131)
       (blit "Test Using Larger Than Block-Size Key - Hash Key First"))
  = lit "60e431591ee0b67f0d8a26aacbf5b77f8e0bc6213728c5140546040f0ee37f54".
Proof. vm_compute. reflexivity. Qed.

Example hmac_empty_key :
  HMAC.hexdigest (HMAC.new [] (blit "abc"))
  = lit "fd7adb152c05ef80dccf50a1fa4c05d5a3ec6da95575fc312ae7c5d091836351".
Proof. vm_compute. reflexivity. Qed.

Example utf8_samples :
  utf8_encode [0x20AC; 0x1F510; 0xE9; 0x41]%N
  = Some [xe2; x82; xac; xf0; x9f; x94; x90; xc3; xa9; x41]
  /\ utf8_encode [0x41; 0xDC80]%N = None.
Proof. split; reflexivity. Qed.

Example strip_sample :
  strip ([x20; x0b; x0c; x1c; x85] ++ blit "ab" ++ [x00; x20; x0d; x0a])
  = [x1c; x85] ++ blit "ab" ++ [x00].
Proof. reflexivity. Qed.

(** ** The SHA-256 object against the one-step hash *)
Module SHA256Facts.
Import SHA256.

Lemma hash_blocks_add (n m : nat) (h : regs) (d : bytes) :
  hash_blocks (n + m) h d = hash_blocks m (hash_blocks n h d) (skipn (64 * n) d).
Proof.
  revert h d. induction n as [|n IH]; intros h d.
  - reflexivity.
  - cbn [hash_blocks Nat.add]. rewrite IH, skipn_skipn.
    do 2 f_equal. lia.
Qed.

Lemma hash_blocks_app (n : nat) (h : regs) (a b : bytes) :
  (64 * n <= length a)%nat -> hash_blocks n h (a ++ b) = hash_blocks n h a.
Proof.
  revert h a. induction n as [|n IH]; intros h a Hlen; [reflexivity|].
  cbn [hash_blocks].
  rewrite take_app_le, drop_app_le by lia.
  apply IH. rewrite length_skipn. lia.
Qed.

Lemma blocks_split (a b : nat) :
  ((a + b) / 64 = a / 64 + (a mod 64 + b) / 64)%nat.
Proof.
  assert (H : (a + b = (a mod 64 + b) + (a / 64) * 64)%nat).
  { pose proof (Nat.div_mod_eq a 64). lia. }
  rewrite H, Nat.div_add by lia. lia.
Qed.

Lemma length_pending (m : bytes) :
  length (skipn (64 * (length m / 64)) m) = (length m mod 64)%nat.
Proof.
  rewrite length_skipn. pose proof (Nat.div_mod_eq (length m) 64). lia.
Qed.

(** [update] twice is [update] once on the concatenation. *)
Lemma update_app (o : obj) (a b : bytes) :
  update (update o a) b = update o (a ++ b).
Proof.
  unfold update. cbn [o_h o_buf o_len].
  set (p := o_buf o ++ a).
  assert (Hn : (64 * (length p / 64) <= length p)%nat).
  { pose proof (Nat.div_mod_eq (length p) 64). lia. }
  assert (Hq : (length (o_buf o ++ a ++ b) / 64
                = length p / 64 + length (skipn (64 * (length p / 64)) p ++ b) / 64)%nat).
  { rewrite app_assoc. fold p. rewrite !length_app, length_pending.
    apply blocks_split. }
  rewrite Hq. rewrite app_assoc. fold p.
  f_equal.
  - rewrite hash_blocks_add, (hash_blocks_app _ _ p), (drop_app_le p) by lia.
    reflexivity.
  - rewrite Nat.mul_add_distr_l, Nat.add_comm, <- skipn_skipn.
    rewrite (drop_app_le p) by lia. reflexivity.
  - rewrite length_app. lia.
Qed.

Lemma update_new_nil : update new [] = new.
Proof. reflexivity. Qed.

(** Feeding a whole message to a fresh object and asking for the digest
    is the one-step hash. *)
Lemma digest_update_new (m : bytes) : digest (update new m) = hash m.
Proof.
  unfold digest, update, hash, new. cbn [o_h o_buf o_len app Nat.add].
  set (pad := padding (length m)).
  assert (Hn : (64 * (length m / 64) <= length m)%nat).
  { pose proof (Nat.div_mod_eq (length m) 64). lia. }
  f_equal.
  rewrite (length_app m), blocks_split, hash_blocks_add.
  rewrite (hash_blocks_app _ _ m), (drop_app_le m) by lia.
  rewrite length_app, length_pending. reflexivity.
Qed.

Lemma length_bytes_of_word (w : Z) : length (bytes_of_word w) = 4%nat.
Proof. reflexivity. Qed.

Lemma length_serialize (h : regs) : length (serialize h) = 32%nat.
Proof. reflexivity. Qed.

Lemma length_hash (m : bytes) : length (hash m) = 32%nat.
Proof. apply length_serialize. Qed.


End SHA256Facts.

(** *** Hex strings *)

Lemma hex_of_byte_lower (b : byte) :
  Forall (fun c => is_lower_hex c = true) (hex_of_byte b).
Proof. destruct b; repeat constructor. Qed.

Lemma hex_lower (l : bytes) : Forall (fun c => is_lower_hex c = true) (hex l).
Proof.
  unfold hex. induction l as [|b l IH]; cbn [map concat]; [constructor|].
  apply Forall_app. split; [apply hex_of_byte_lower | exact IH].
Qed.

Lemma length_hex (l : bytes) : length (hex l) = (2 * length l)%nat.
Proof.
  unfold hex. induction l as [|b l IH]; [reflexivity|].
  cbn [map concat]. rewrite length_app, IH. cbn [hex_of_byte length]. lia.
Qed.

Lemma lower_hex_ascii (c : N) : is_lower_hex c = true -> is_ascii c = true.
Proof.
  unfold is_lower_hex, is_ascii. intros H.
  apply N.ltb_lt.
  apply orb_true_iff in H as [H|H]; apply andb_true_iff in H as [_ H];
    apply N.leb_le in H; lia.
Qed.

(** *** UTF-8 of ASCII text *)

Lemma utf8_encode_ascii (s : pystr) :
  Forall (fun c => is_ascii c = true) s -> utf8_encode s = Some (ascii_bytes s).
Proof.
  induction 1 as [|c s Hc _ IH]; [reflexivity|].
  cbn [utf8_encode]. rewrite IH. unfold utf8_encode_cp.
  unfold is_ascii in Hc. rewrite Hc. reflexivity.
Qed.

Lemma utf8_encode_hex (l : bytes) : utf8_encode (hex l) = Some (ascii_bytes (hex l)).
Proof.
  apply utf8_encode_ascii. eapply Forall_impl; [apply hex_lower|].
  intros c. apply lower_hex_ascii.
Qed.

Lemma utf8_encode_app (s t : pystr) :
  utf8_encode (s ++ t)
  = match utf8_encode s, utf8_encode t with
    | Some a, Some b => Some (a ++ b)
    | _, _ => None
    end.
Proof.
  induction s as [|c s IH]; cbn [utf8_encode app].
  - destruct (utf8_encode t); reflexivity.
  - rewrite IH. destruct (utf8_encode_cp c), (utf8_encode s), (utf8_encode t);
      rewrite ?app_assoc; reflexivity.
Qed.

(** *** HMAC object against RFC 2104 *)

Lemma hmac_digest_new (key msg : bytes) :
  HMAC.digest (HMAC.new key msg) = HMAC.mac key msg.
Proof.
  unfold HMAC.digest, HMAC.new, HMAC.mac, HMAC.ljust, SHA256.block_size.
  cbn [HMAC.inner HMAC.outer].
  rewrite !SHA256Facts.update_app, !SHA256Facts.digest_update_new.
  reflexivity.
Qed.

Lemma hmac_hexdigest_new (key msg : bytes) :
  HMAC.hexdigest (HMAC.new key msg) = hex (HMAC.mac key msg).
Proof. unfold HMAC.hexdigest. rewrite hmac_digest_new. reflexivity. Qed.

Lemma length_hmac_mac (key msg : bytes) : length (HMAC.mac key msg) = 32%nat.
Proof. apply SHA256Facts.length_hash. Qed.

(** *** The chunked read loop *)

Lemma firstn_nil_inv {A} (n : nat) (l : list A) :
  (0 < n)%nat -> firstn n l = [] -> l = [].
Proof. destruct n, l; simpl; intros; try lia; congruence. Qed.

Lemma read_chunks_update (size : nat) (o0 : SHA256.obj) (rest : bytes) :
  (0 < size)%nat ->
  forall o m, o0 = SHA256.update o m ->
  GenerateApkHmac.read_chunks size o0 rest = SHA256.update o (m ++ rest).
Proof.
  intros Hsize.
  funelim (GenerateApkHmac.read_chunks size o0 rest); intros o m ->.
  - match goal with H : firstn _ _ = [] |- _ =>
      apply firstn_nil_inv in H; [subst rest | assumption] end.
    rewrite app_nil_r. reflexivity.
  - match goal with IH : context [GenerateApkHmac.read_chunks _ _ _ = _] |- _ =>
      rewrite (IH Hsize o (m ++ b :: chunk)) end.
    + rewrite <- app_assoc.
      match goal with H : firstn _ _ = _ :: _ |- _ => rewrite <- H end.
      rewrite firstn_skipn. reflexivity.
    + rewrite SHA256Facts.update_app. reflexivity.
Qed.


(** *** The monad *)

Lemma bind_ok {A B} (c : M A) (k : A -> M B) (w w' : world) (a : A) :
  c w = (Ok a, w') -> bind c k w = k a w'.
Proof. unfold bind. intros ->. reflexivity. Qed.

Lemma bind_raise {A B} (c : M A) (k : A -> M B) (w w' : world) (e : exn) :
  c w = (Raise e, w') -> bind c k w = (Raise e, w').
Proof. unfold bind. intros ->. reflexivity. Qed.

Lemma encode_ok (s : pystr) (b : bytes) (w : world) :
  utf8_encode s = Some b -> encode s w = (Ok b, w).
Proof. unfold encode. intros ->. reflexivity. Qed.

Lemma open_rb_ok (path : pystr) (content : bytes) (w : world) :
  w_fs w !! path = Some content -> open_rb path w = (Ok content, w).
Proof. unfold open_rb. intros ->. reflexivity. Qed.

Lemma write_text_ascii (path text : pystr) (w : world) :
  Forall (fun c => is_ascii c = true) text ->
  write_text path text w = (Ok tt, set_file path (ascii_bytes text) w).
Proof.
  intros H. unfold write_text. rewrite (utf8_encode_ascii _ H). reflexivity.
Qed.

(** *** Decimal and JSON text is ASCII *)

Lemma digits_of_uint_ascii (d : Decimal.uint) :
  Forall (fun c => is_ascii c = true) (digits_of_uint d).
Proof. induction d; cbn [digits_of_uint]; constructor; auto. Qed.

Lemma str_of_int_ascii (z : Z) : Forall (fun c => is_ascii c = true) (str_of_int z).
Proof.
  destruct z; cbn [str_of_int]; repeat constructor; apply digits_of_uint_ascii.
Qed.

Lemma hex_digit_lower (z : Z) : 0 <= z < 16 -> is_lower_hex (hex_digit z) = true.
Proof.
  intros H.
  assert (Hz : z = 0 \/ z = 1 \/ z = 2 \/ z = 3 \/ z = 4 \/ z = 5 \/ z = 6 \/ z = 7
               \/ z = 8 \/ z = 9 \/ z = 10 \/ z = 11 \/ z = 12 \/ z = 13 \/ z = 14
               \/ z = 15) by lia.
  repeat (destruct Hz as [->|Hz]; [reflexivity|]). subst z. reflexivity.
Qed.

Lemma land_15_range (z : Z) : 0 <= Z.land z 15 < 16.
Proof.
  change 15 with (Z.ones 4). rewrite Z.land_ones by lia.
  apply Z.mod_pos_bound. reflexivity.
Qed.

Lemma hex4_ascii (n : N) : Forall (fun c => is_ascii c = true) (hex4 n).
Proof.
  unfold hex4.
  repeat constructor; apply lower_hex_ascii, hex_digit_lower, land_15_range.
Qed.

Lemma json_escape_cp_ascii (c : N) :
  Forall (fun c => is_ascii c = true) (json_escape_cp c).
Proof.
  unfold json_escape_cp.
  repeat match goal with
         | |- context [if ?b then _ else _] => destruct b eqn:?
         end;
    rewrite ?Forall_app; repeat split;
    try apply hex4_ascii; try (repeat constructor; fail).
  constructor; [|constructor].
  match goal with H : (_ && _)%bool = true |- _ =>
    apply andb_true_iff in H as [_ H]; apply N.leb_le in H end.
  apply N.ltb_lt. lia.
Qed.

Lemma json_str_ascii (s : pystr) : Forall (fun c => is_ascii c = true) (json_str s).
Proof.
  unfold json_str. rewrite !Forall_app. repeat split; try (repeat constructor; fail).
  induction s as [|c s IH]; cbn [map concat]; [constructor|].
  rewrite Forall_app. split; [apply json_escape_cp_ascii | exact IH].
Qed.

Lemma json_item_ascii (kv : pystr * jvalue) :
  Forall (fun c => is_ascii c = true) (json_item kv).
Proof.
  unfold json_item. rewrite !Forall_app. repeat split.
  - apply json_str_ascii.
  - repeat constructor.
  - destruct (snd kv); [apply json_str_ascii | apply str_of_int_ascii].
Qed.

Lemma json_items_ascii (d : pydict) : Forall (fun c => is_ascii c = true) (json_items d).
Proof.
  induction d as [|kv d IH]; [constructor|].
  destruct d as [|kv' d].
  - cbn [json_items]. rewrite !Forall_app. repeat split;
      try (repeat constructor; fail). apply json_item_ascii.
  - change (json_items (kv :: kv' :: d))
      with ([10%N] ++ lit "  " ++ json_item kv ++ lit "," ++ json_items (kv' :: d)).
    rewrite !Forall_app. repeat split; try (repeat constructor; fail);
      [apply json_item_ascii | exact IH].
Qed.

Lemma json_dumps_ascii (d : pydict) : Forall (fun c => is_ascii c = true) (json_dumps d).
Proof.
  destruct d as [|kv d]; [repeat constructor|].
  unfold json_dumps. rewrite !Forall_app. repeat split;
    try (repeat constructor; fail). apply json_items_ascii.
Qed.

Example json_dumps_escapes :
  json_dumps [ (lit "a", JStr ([120; 0x22; 121; 0x5C; 122; 0x7F; 0x20AC; 0x1F510; 10; 1]%N));
               (lit "t", JInt (-5)) ]
  = lit "{" ++ [10%N] ++ lit "  " ++ [0x22%N] ++ lit "a" ++ [0x22%N] ++ lit ": "
    ++ [0x22%N] ++ lit "x\" ++ [0x22%N] ++ lit "y\\z\u007f\u20ac\ud83d\udd10\n\u0001"
    ++ [0x22%N] ++ lit "," ++ [10%N] ++ lit "  " ++ [0x22%N] ++ lit "t" ++ [0x22%N]
    ++ lit ": -5" ++ [10%N] ++ lit "}".
Proof. vm_compute. reflexivity. Qed.

(** ** Claims about [generate_apk_hmac.py] *)

Lemma chunk_size_pos : (0 < GenerateApkHmac.chunk_size)%nat.
Proof. unfold GenerateApkHmac.chunk_size. lia. Qed.

Lemma read_chunks_new (size : nat) (data : bytes) :
  (0 < size)%nat ->
  GenerateApkHmac.read_chunks size SHA256.new data = SHA256.update SHA256.new data.
Proof.
  intros H.
  apply (read_chunks_update size SHA256.new data H SHA256.new []).
  reflexivity.
Qed.

Lemma read_chunks_hexdigest (size : nat) (data : bytes) :
  (0 < size)%nat ->
  sha256_hexdigest (GenerateApkHmac.read_chunks size SHA256.new data)
  = hex (SHA256.hash data).
Proof.
  intros H. unfold sha256_hexdigest.
  rewrite read_chunks_new, SHA256Facts.digest_update_new by assumption.
  reflexivity.
Qed.

Lemma calculate_apk_hash_ok (w : world) (apk_path : pystr) (data : bytes) :
  w_fs w !! apk_path = Some data ->
  GenerateApkHmac.calculate_apk_hash apk_path w = (Ok (hex (SHA256.hash data)), w).
Proof.
  intros Hf. unfold GenerateApkHmac.calculate_apk_hash.
  rewrite (bind_ok _ _ _ _ _ (open_rb_ok _ _ _ Hf)).
  unfold ret. rewrite read_chunks_hexdigest by apply chunk_size_pos. reflexivity.
Qed.

Lemma generate_hmac_signature_ok (w : world) (apk_path : pystr) (data key : bytes) :
  w_fs w !! apk_path = Some data ->
  GenerateApkHmac.generate_hmac_signature apk_path key w
  = (Ok (hex (HMAC.mac key (ascii_bytes (hex (SHA256.hash data)))),
         hex (SHA256.hash data)), w).
Proof.
  intros Hf. unfold GenerateApkHmac.generate_hmac_signature.
  rewrite (bind_ok _ _ _ _ _ (calculate_apk_hash_ok _ _ _ Hf)).
  rewrite (bind_ok _ _ _ _ _ (encode_ok _ _ _ (utf8_encode_hex _))).
  unfold ret. rewrite hmac_hexdigest_new. reflexivity.
Qed.

(** C4. The digest that [calculate_apk_hash] accumulates over the 8192-byte
    chunks of a file is the lowercase-hex SHA-256 digest of the whole
    content hashed in one step, and the same holds for the read loop with
    any positive chunk size. *)
Theorem calculate_apk_hash_one_step (w : world) (apk_path : pystr)
    (data : bytes) (size : nat) :
  w_fs w !! apk_path = Some data ->
  (0 < size)%nat ->
  GenerateApkHmac.calculate_apk_hash apk_path w = (Ok (hex (SHA256.hash data)), w)
  /\ sha256_hexdigest (GenerateApkHmac.read_chunks size SHA256.new data)
     = hex (SHA256.hash data)
  /\ length (hex (SHA256.hash data)) = 64%nat
  /\ Forall (fun c => is_lower_hex c = true) (hex (SHA256.hash data)).
Proof.
  intros Hf Hsize. split; [|split; [|split]].
  - apply calculate_apk_hash_ok, Hf.
  - apply read_chunks_hexdigest, Hsize.
  - rewrite length_hex, SHA256Facts.length_hash. reflexivity.
  - apply hex_lower.
Qed.

Lemma calculate_apk_hash_one_step_witness :
  GenerateApkHmac.calculate_apk_hash (lit "app.apk") Sample.apk_world
  = (Ok (hex (SHA256.hash (blit "hello world"))), Sample.apk_world)
  /\ sha256_hexdigest
       (GenerateApkHmac.read_chunks 4 SHA256.new (blit "hello world"))
     = hex (SHA256.hash (blit "hello world"))
  /\ length (hex (SHA256.hash (blit "hello world"))) = 64%nat
  /\ Forall (fun c => is_lower_hex c = true) (hex (SHA256.hash (blit "hello world"))).
Proof.
  apply (calculate_apk_hash_one_step Sample.apk_world (lit "app.apk")
           (blit "hello world") 4).
  - vm_compute. reflexivity.
  - lia.
Defined.

(** C1. Signing an APK yields HMAC-SHA256 of the key and the UTF-8 bytes of
    the lowercase-hex SHA-256 digest of the file, in lowercase hex; the tag
    is determined by the file bytes and the key alone. *)
Theorem generate_hmac_signature_digest_then_mac (w : world) (apk_path : pystr)
    (data key : bytes) :
  w_fs w !! apk_path = Some data ->
  exists tag : pystr,
    digest_then_mac key data = Some tag
    /\ GenerateApkHmac.generate_hmac_signature apk_path key w
       = (Ok (tag, hex (SHA256.hash data)), w)
    /\ length tag = 64%nat
    /\ Forall (fun c => is_lower_hex c = true) tag
    /\ (forall (w' : world) (apk_path' : pystr),
          w_fs w' !! apk_path' = Some data ->
          fst (GenerateApkHmac.generate_hmac_signature apk_path' key w')
          = Ok (tag, hex (SHA256.hash data))).
Proof.
  intros Hf.
  exists (hex (HMAC.mac key (ascii_bytes (hex (SHA256.hash data))))).
  split; [|split; [|split; [|split]]].
  - unfold digest_then_mac. rewrite utf8_encode_hex. reflexivity.
  - apply generate_hmac_signature_ok, Hf.
  - rewrite length_hex, length_hmac_mac. reflexivity.
  - apply hex_lower.
  - intros w' p' Hf'. rewrite (generate_hmac_signature_ok _ _ _ _ Hf'). reflexivity.
Qed.

Lemma generate_hmac_signature_digest_then_mac_witness :
  exists tag : pystr,
    digest_then_mac (blit "k1") (blit "hello world") = Some tag
    /\ GenerateApkHmac.generate_hmac_signature (lit "app.apk") (blit "k1")
         Sample.apk_world
       = (Ok (tag, hex (SHA256.hash (blit "hello world"))), Sample.apk_world)
    /\ length tag = 64%nat
    /\ Forall (fun c => is_lower_hex c = true) tag
    /\ (forall (w' : world) (apk_path' : pystr),
          w_fs w' !! apk_path' = Some (blit "hello world") ->
          fst (GenerateApkHmac.generate_hmac_signature apk_path' (blit "k1") w')
          = Ok (tag, hex (SHA256.hash (blit "hello world")))).
Proof.
  apply (generate_hmac_signature_digest_then_mac Sample.apk_world (lit "app.apk")
           (blit "hello world") (blit "k1")).
  vm_compute. reflexivity.
Defined.

(** The concrete scenario of the specification, against values computed
    with a stock HMAC implementation. *)
Example hello_world_k1 :
  fst (GenerateApkHmac.generate_hmac_signature (lit "app.apk") (blit "k1")
         Sample.apk_world)
  = Ok (lit "6dd3cd92cfd8a2f5a6065204f83b9bc81a2df56674bf230138f5cdc0a560146d",
        lit "b94d27b9934d3e08a52e52d7da7dabfac484efe37a5380ee9088f7ace2efcde9").
Proof. vm_compute. reflexivity. Qed.

(** ** Claims about [generate_secure_signature.py] *)

Lemma utf8_encode_cp_scalar (c : N) :
  is_scalar c = true -> is_Some (utf8_encode_cp c).
Proof.
  unfold is_scalar, utf8_encode_cp. intros H.
  assert (Hs : (c < 0xD800 \/ (0xDFFF < c /\ c < 0x110000))%N).
  { apply orb_true_iff in H as [H|H].
    - left. apply N.ltb_lt, H.
    - right. apply andb_true_iff in H as [H1 H2].
      split; apply N.ltb_lt; assumption. }
  clear H.
  destruct (N.ltb_spec c 0x80); [eauto|].
  destruct (N.ltb_spec c 0x800); [eauto|].
  destruct (N.ltb_spec c 0x10000).
  - destruct (N.leb_spec 0xD800 c), (N.leb_spec c 0xDFFF); cbn [andb]; eauto.
    lia.
  - destruct (N.ltb_spec c 0x110000); [eauto|]. lia.
Qed.

Lemma utf8_encode_scalar (s : pystr) :
  Forall (fun c => is_scalar c = true) s -> is_Some (utf8_encode s).
Proof.
  induction 1 as [|c s Hc _ [b Hb]]; [eexists; reflexivity|].
  destruct (utf8_encode_cp_scalar c Hc) as [a Ha].
  cbn [utf8_encode]. rewrite Ha, Hb. eauto.
Qed.

(** C3. The identity-bound key is the SHA-256 digest, 32 bytes long, of
    the UTF-8 encoding of ["<deviceId>:<packageName>:SecurityModule:HMAC"];
    the encoding exists for all strings of Unicode scalar values, and a
    string that has none ([str.encode] raises) yields no key. *)
Theorem device_bound_key_is_sha256_of_binding (device_id package_name : pystr)
    (w : world) :
  GenerateSecureSignature.generate_device_bound_key_simulation
    device_id package_name w
  = (match utf8_encode (device_id ++ lit ":" ++ package_name
                        ++ lit ":SecurityModule:HMAC") with
     | Some data => Ok (SHA256.hash data)
     | None => Raise UnicodeEncodeError
     end, w)
  /\ (forall data : bytes, length (SHA256.hash data) = 32%nat)
  /\ (Forall (fun c => is_scalar c = true) device_id ->
      Forall (fun c => is_scalar c = true) package_name ->
      is_Some (utf8_encode (device_id ++ lit ":" ++ package_name
                            ++ lit ":SecurityModule:HMAC"))).
Proof.
  split; [|split].
  - unfold GenerateSecureSignature.generate_device_bound_key_simulation,
      GenerateSecureSignature.binding_data, bind, encode.
    destruct (utf8_encode _) as [data|]; [|reflexivity].
    unfold ret. rewrite SHA256Facts.digest_update_new. reflexivity.
  - apply SHA256Facts.length_hash.
  - intros Hd Hp. apply utf8_encode_scalar.
    rewrite !Forall_app. repeat split; try assumption; repeat constructor.
Qed.

Lemma device_bound_key_is_sha256_of_binding_witness :
  GenerateSecureSignature.generate_device_bound_key_simulation
    GenerateSecureSignature.device_id GenerateSecureSignature.package_name
    Sample.config_world
  = (Ok (SHA256.hash
           (blit "test_device_12345:com.miaadrajabi.securitysample:SecurityModule:HMAC")),
     Sample.config_world)
  /\ length (SHA256.hash
       (blit "test_device_12345:com.miaadrajabi.securitysample:SecurityModule:HMAC"))
     = 32%nat.
Proof.
  destruct (device_bound_key_is_sha256_of_binding
              GenerateSecureSignature.device_id
              GenerateSecureSignature.package_name Sample.config_world)
    as [Hkey [Hlen Henc]].
  split; [rewrite Hkey; reflexivity | apply Hlen].
Defined.

Example device_bound_key_sample :
  fst (GenerateSecureSignature.generate_device_bound_key_simulation
         GenerateSecureSignature.device_id GenerateSecureSignature.package_name
         Sample.config_world)
  = Ok (SHA256.hash
          (blit "test_device_12345:com.miaadrajabi.securitysample:SecurityModule:HMAC"))
  /\ hex (SHA256.hash
       (blit "test_device_12345:com.miaadrajabi.securitysample:SecurityModule:HMAC"))
     = lit "6b1a798f261ec30f7271ca98ba1091d61431c68270861177047fbebef418311d".
Proof. split; vm_compute; reflexivity. Qed.

(** *** The comparison of the verifier *)







(** ** Claims about [sign_config_hmac.py] *)

Lemma hmac_sha256_hex_direct (raw key : bytes) :
  SignConfigHmac.hmac_sha256_hex raw key = direct_mac key raw.
Proof. apply hmac_hexdigest_new. Qed.

Lemma direct_mac_ascii (key raw : bytes) :
  Forall (fun c => is_ascii c = true) (direct_mac key raw).
Proof.
  eapply Forall_impl; [apply hex_lower|]. intros c. apply lower_hex_ascii.
Qed.

(** What [main] does once the key is loaded and the config is readable. *)
Lemma main_with_key (a : SignConfigHmac.args) (w w1 : world) (k raw : bytes) :
  SignConfigHmac.load_key a w = (Ok k, w1) ->
  w_fs w1 !! SignConfigHmac.config a = Some raw ->
  SignConfigHmac.main a w
  = if SignConfigHmac.truthy (SignConfigHmac.out a)
    then print (default [] (SignConfigHmac.out a))
           (set_file (default [] (SignConfigHmac.out a))
              (ascii_bytes (direct_mac k raw)) w1)
    else print (direct_mac k raw) w1.
Proof.
  intros Hk Hf. unfold SignConfigHmac.main.
  rewrite (bind_ok _ _ _ _ _ Hk).
  rewrite (bind_ok _ _ _ _ _ (open_rb_ok _ _ _ Hf)).
  rewrite hmac_sha256_hex_direct.
  destruct (SignConfigHmac.truthy (SignConfigHmac.out a)); [|reflexivity].
  unfold bind. rewrite (write_text_ascii _ _ _ (direct_mac_ascii k raw)).
  reflexivity.
Qed.

Lemma utf8_encode_cp_nonempty (c : N) (b : bytes) :
  utf8_encode_cp c = Some b -> b <> [].
Proof.
  unfold utf8_encode_cp.
  repeat match goal with
         | |- context [if ?x then _ else _] => destruct x
         end; intros H; inversion H; discriminate.
Qed.

Lemma utf8_encode_nonempty (s : pystr) (b : bytes) :
  s <> [] -> utf8_encode s = Some b -> b <> [].
Proof.
  destruct s as [|c s]; [congruence|]. intros _. cbn [utf8_encode].
  destruct (utf8_encode_cp c) as [a|] eqn:Ha; [|discriminate].
  destruct (utf8_encode s) as [b'|]; [|discriminate].
  intros H. inversion H. subst b.
  apply utf8_encode_cp_nonempty in Ha. destruct a; [congruence | discriminate].
Qed.

(** C5. With the environment-variable key source, an unset or empty
    variable ends the run with exit status 2 before the config is read:
    nothing is written to a file or to standard output.  Whenever this
    source does yield a key, the variable is set to a non-empty string and
    the key is its non-empty UTF-8 encoding. *)
Theorem env_key_unset_or_empty_exits (a : SignConfigHmac.args) (w : world)
    (name : pystr) :
  SignConfigHmac.key a = None ->
  SignConfigHmac.key_env a = Some name ->
  (w_environ w !! name = None \/ w_environ w !! name = Some [] ->
   exists w' : world,
     SignConfigHmac.load_key a w = (Raise (SystemExit 2), w')
     /\ SignConfigHmac.main a w = (Raise (SystemExit 2), w')
     /\ exit_status (fst (SignConfigHmac.main a w)) = 2
     /\ w_fs w' = w_fs w
     /\ w_stdout w' = w_stdout w)
  /\ (forall (k : bytes) (w' : world),
        SignConfigHmac.load_key a w = (Ok k, w') ->
        k <> []
        /\ exists val : pystr,
             w_environ w !! name = Some val /\ val <> []
             /\ utf8_encode val = Some k).
Proof.
  intros Hkey Henv.
  assert (Hload : SignConfigHmac.load_key a w
                  = match w_environ w !! name with
                    | Some (c :: v) => encode (c :: v) w
                    | _ => (Raise (SystemExit 2),
                            snd (print_stderr
                                   (lit "Environment variable " ++ name
                                    ++ lit " is empty or not set") w))
                    end).
  { unfold SignConfigHmac.load_key. rewrite Hkey, Henv.
    unfold bind, os_environ_get.
    destruct (w_environ w !! name) as [[|c v]|]; reflexivity. }
  split.
  - intros Hunset.
    assert (Hraise : SignConfigHmac.load_key a w
                     = (Raise (SystemExit 2),
                        snd (print_stderr
                               (lit "Environment variable " ++ name
                                ++ lit " is empty or not set") w))).
    { rewrite Hload. destruct Hunset as [Hu | Hu]; rewrite Hu; reflexivity. }
    assert (Hmain : SignConfigHmac.main a w
                    = (Raise (SystemExit 2),
                       snd (print_stderr
                              (lit "Environment variable " ++ name
                               ++ lit " is empty or not set") w))).
    { unfold SignConfigHmac.main. apply bind_raise, Hraise. }
    eexists. split; [exact Hraise|]. split; [exact Hmain|].
    split; [rewrite Hmain; reflexivity|]. split; reflexivity.
  - intros k w' Hok. rewrite Hload in Hok.
    destruct (w_environ w !! name) as [[|c v]|]; try discriminate.
    unfold encode in Hok.
    destruct (utf8_encode (c :: v)) as [b|] eqn:Hb; [|discriminate].
    inversion Hok. subst.
    split; [eapply utf8_encode_nonempty; [|exact Hb]; discriminate|].
    exists (c :: v). repeat split; [discriminate | exact Hb].
Qed.

Lemma env_key_unset_or_empty_exits_witness :
  exists w' : world,
    SignConfigHmac.load_key (Sample.args_env (lit "EMPTY")) Sample.config_world
    = (Raise (SystemExit 2), w')
    /\ SignConfigHmac.main (Sample.args_env (lit "EMPTY")) Sample.config_world
       = (Raise (SystemExit 2), w')
    /\ exit_status
         (fst (SignConfigHmac.main (Sample.args_env (lit "EMPTY"))
                 Sample.config_world)) = 2
    /\ w_fs w' = w_fs Sample.config_world
    /\ w_stdout w' = w_stdout Sample.config_world.
Proof.
  apply (env_key_unset_or_empty_exits (Sample.args_env (lit "EMPTY"))
           Sample.config_world (lit "EMPTY") eq_refl eq_refl).
  right. vm_compute. reflexivity.
Defined.

Example env_key_set_signs :
  fst (SignConfigHmac.main (Sample.args_env (lit "CONFIG_HMAC_KEY"))
         Sample.config_world) = Ok tt
  /\ w_stdout (snd (SignConfigHmac.main (Sample.args_env (lit "CONFIG_HMAC_KEY"))
                      Sample.config_world))
     = [direct_mac (blit "mysecret") Sample.config_bytes].
Proof. split; vm_compute; reflexivity. Qed.



(** *** [bytes.strip()] *)

Lemma lstrip_spec (l : bytes) :
  exists pre : bytes,
    l = pre ++ lstrip l
    /\ Forall (fun b => is_space b = true) pre
    /\ (forall b t, lstrip l = b :: t -> is_space b = false).
Proof.
  induction l as [|x l (pre & Hl & Hpre & Hhd)].
  - exists []. repeat split; [constructor | discriminate].
  - cbn [lstrip]. destruct (is_space x) eqn:Hx.
    + exists (x :: pre). split; [cbn; congruence|].
      split; [constructor; assumption | exact Hhd].
    + exists []. split; [reflexivity|]. split; [constructor|].
      intros b t H. inversion H. subst. exact Hx.
Qed.

Lemma lstrip_snoc (l : bytes) (x : byte) :
  is_space x = false -> lstrip (l ++ [x]) = lstrip l ++ [x].
Proof.
  intros Hx. induction l as [|y l IH]; cbn [lstrip app].
  - rewrite Hx. reflexivity.
  - destruct (is_space y); [exact IH | reflexivity].
Qed.

Lemma rstrip_spec (l : bytes) :
  exists post : bytes,
    l = rstrip l ++ post
    /\ Forall (fun b => is_space b = true) post
    /\ (forall b t, rev (rstrip l) = b :: t -> is_space b = false).
Proof.
  destruct (lstrip_spec (rev l)) as (pre & Hl & Hpre & Hhd).
  exists (rev pre). unfold rstrip. split; [|split].
  - rewrite <- rev_app_distr, <- Hl, rev_involutive. reflexivity.
  - apply Forall_rev, Hpre.
  - rewrite rev_involutive. exact Hhd.
Qed.

Lemma rstrip_cons (x : byte) (l : bytes) :
  is_space x = false -> rstrip (x :: l) = x :: rstrip l.
Proof.
  intros Hx. unfold rstrip. cbn [rev].
  rewrite lstrip_snoc by exact Hx.
  rewrite rev_app_distr. reflexivity.
Qed.

(** [strip] removes a run of whitespace at each end and nothing else. *)
Lemma strip_spec (l : bytes) :
  (exists pre post : bytes,
     l = pre ++ strip l ++ post
     /\ Forall (fun b => is_space b = true) pre
     /\ Forall (fun b => is_space b = true) post)
  /\ (forall b t, strip l = b :: t -> is_space b = false)
  /\ (forall b t, rev (strip l) = b :: t -> is_space b = false).
Proof.
  destruct (lstrip_spec l) as (pre & Hl & Hpre & Hhd).
  destruct (rstrip_spec (lstrip l)) as (post & Hr & Hpost & Hlast).
  unfold strip. split; [|split].
  - exists pre, post. split; [|split; assumption].
    rewrite <- Hr. exact Hl.
  - destruct (lstrip l) as [|x m] eqn:Hm; [discriminate|].
    pose proof (Hhd x m eq_refl) as Hx.
    rewrite rstrip_cons by exact Hx.
    intros b t H. inversion H. subst. exact Hx.
  - exact Hlast.
Qed.

Lemma load_key_file_ok (a : SignConfigHmac.args) (w : world) (path : pystr)
    (content : bytes) :
  SignConfigHmac.key a = None ->
  SignConfigHmac.key_env a = None ->
  SignConfigHmac.key_file a = Some path ->
  w_fs w !! path = Some content ->
  SignConfigHmac.load_key a w = (Ok (strip content), w).
Proof.
  intros Hkey Henv Hfile Hf.
  unfold SignConfigHmac.load_key. rewrite Hkey, Henv, Hfile.
  rewrite (bind_ok _ _ _ _ _ (open_rb_ok _ _ _ Hf)). reflexivity.
Qed.

(** C7, as the code has it. A readable key file gives as key its content
    with the ASCII whitespace at both ends removed: the content is the key
    between two runs of whitespace, and the key neither starts nor ends with
    whitespace.  That key is the one the tag is computed with. *)
Theorem file_key_is_stripped_both_ends (a : SignConfigHmac.args) (w : world)
    (path : pystr) (content : bytes) :
  SignConfigHmac.key a = None ->
  SignConfigHmac.key_env a = None ->
  SignConfigHmac.key_file a = Some path ->
  w_fs w !! path = Some content ->
  SignConfigHmac.load_key a w = (Ok (strip content), w)
  /\ (exists pre post : bytes,
        content = pre ++ strip content ++ post
        /\ Forall (fun b => is_space b = true) pre
        /\ Forall (fun b => is_space b = true) post)
  /\ (forall b t, strip content = b :: t -> is_space b = false)
  /\ (forall b t, rev (strip content) = b :: t -> is_space b = false)
  /\ (forall raw : bytes,
        w_fs w !! SignConfigHmac.config a = Some raw ->
        SignConfigHmac.truthy (SignConfigHmac.out a) = false ->
        SignConfigHmac.main a w = print (direct_mac (strip content) raw) w).
Proof.
  intros Hkey Henv Hfile Hf.
  pose proof (load_key_file_ok a w path content Hkey Henv Hfile Hf) as Hload.
  destruct (strip_spec content) as (Hsplit & Hhd & Hlast).
  split; [exact Hload|]. split; [exact Hsplit|].
  split; [exact Hhd|]. split; [exact Hlast|].
  intros raw Hraw Hout.
  rewrite (main_with_key a w w _ raw Hload Hraw), Hout. reflexivity.
Qed.

Lemma file_key_is_stripped_both_ends_witness :
  SignConfigHmac.load_key (Sample.args_file (lit "key.txt")) Sample.config_world
  = (Ok (strip (x20 :: blit "k1" ++ [x0a])), Sample.config_world)
  /\ SignConfigHmac.main (Sample.args_file (lit "key.txt")) Sample.config_world
     = print (direct_mac (strip (x20 :: blit "k1" ++ [x0a])) Sample.config_bytes)
         Sample.config_world.
Proof.
  destruct (file_key_is_stripped_both_ends
              (Sample.args_file (lit "key.txt")) Sample.config_world
              (lit "key.txt") (x20 :: blit "k1" ++ [x0a])
              eq_refl eq_refl eq_refl)
    as (Hload & _ & _ & _ & Hmain).
  - vm_compute. reflexivity.
  - split; [exact Hload|].
    apply Hmain; vm_compute; reflexivity.
Defined.

(** C7, as stated, fails: for a key file that starts with a blank, the
    key is not the content with only its trailing whitespace trimmed. *)
Lemma file_key_leading_blank_dropped :
  w_fs Sample.config_world !! lit "key.txt" = Some (x20 :: blit "k1" ++ [x0a])
  /\ rstrip (x20 :: blit "k1" ++ [x0a]) = x20 :: blit "k1"
  /\ fst (SignConfigHmac.load_key (Sample.args_file (lit "key.txt"))
            Sample.config_world) = Ok (blit "k1")
  /\ fst (SignConfigHmac.load_key (Sample.args_file (lit "key.txt"))
            Sample.config_world)
     <> Ok (rstrip (x20 :: blit "k1" ++ [x0a])).
Proof.
  split; [vm_compute; reflexivity|].
  split; [reflexivity|].
  split; [vm_compute; reflexivity|].
  vm_compute. discriminate.
Qed.

(** C6 at its failing input. A key file that holds only a newline is
    readable and empty after trimming; [main] does not fail: the key is the
    zero-length byte string, the tag over the config is printed and the exit
    status is 0.  The same empty value in an environment variable is
    refused with status 2. *)
Theorem blank_key_file_signs_with_empty_key :
  w_fs Sample.config_world !! lit "blank.txt" = Some [x0a]
  /\ SignConfigHmac.load_key (Sample.args_file (lit "blank.txt")) Sample.config_world
     = (Ok [], Sample.config_world)
  /\ SignConfigHmac.main (Sample.args_file (lit "blank.txt")) Sample.config_world
     = print (direct_mac [] Sample.config_bytes) Sample.config_world
  /\ exit_status
       (fst (SignConfigHmac.main (Sample.args_file (lit "blank.txt"))
               Sample.config_world)) = 0
  /\ exit_status
       (fst (SignConfigHmac.main (Sample.args_env (lit "EMPTY"))
               Sample.config_world)) = 2.
Proof.
  assert (Hf : w_fs Sample.config_world !! lit "blank.txt" = Some [x0a])
    by (vm_compute; reflexivity).
  assert (Hc : w_fs Sample.config_world !! lit "cfg.json" = Some Sample.config_bytes)
    by (vm_compute; reflexivity).
  pose proof (load_key_file_ok (Sample.args_file (lit "blank.txt"))
                Sample.config_world (lit "blank.txt") [x0a]
                eq_refl eq_refl eq_refl Hf) as Hload.
  change (strip [x0a]) with (@nil byte) in Hload.
  pose proof (main_with_key _ _ _ _ _ Hload Hc) as Hmain.
  change (SignConfigHmac.truthy
            (SignConfigHmac.out (Sample.args_file (lit "blank.txt"))))
    with false in Hmain.
  cbv iota in Hmain.
  split; [exact Hf|]. split; [exact Hload|]. split; [exact Hmain|].
  split; [rewrite Hmain; reflexivity|].
  vm_compute. reflexivity.
Qed.

(** A missing key file, by contrast, stops the run: [open] raises and the
    interpreter exits with status 1. *)
Lemma missing_key_file_raises (a : SignConfigHmac.args) (w : world) (path : pystr) :
  SignConfigHmac.key a = None ->
  SignConfigHmac.key_env a = None ->
  SignConfigHmac.key_file a = Some path ->
  w_fs w !! path = None ->
  SignConfigHmac.main a w = (Raise (FileNotFoundError path), w)
  /\ exit_status (fst (SignConfigHmac.main a w)) = 1.
Proof.
  intros Hkey Henv Hfile Hf.
  assert (Hmain : SignConfigHmac.main a w = (Raise (FileNotFoundError path), w)).
  { unfold SignConfigHmac.main. apply bind_raise.
    unfold SignConfigHmac.load_key. rewrite Hkey, Henv, Hfile.
    apply bind_raise. unfold open_rb. rewrite Hf. reflexivity. }
  split; [exact Hmain | rewrite Hmain; reflexivity].
Qed.

(** ** The structured signature record *)



Lemma utf8_encode_is_Some_app (s t : pystr) :
  is_Some (utf8_encode s) -> is_Some (utf8_encode t) ->
  is_Some (utf8_encode (s ++ t)).
Proof.
  intros [a Ha] [b Hb]. rewrite utf8_encode_app, Ha, Hb. eauto.
Qed.

Lemma utf8_encode_is_Some_ascii (s : pystr) :
  Forall (fun c => is_ascii c = true) s -> is_Some (utf8_encode s).
Proof. intros H. rewrite (utf8_encode_ascii s H). eauto. Qed.

Lemma utf8_encode_is_Some_hex (l : bytes) : is_Some (utf8_encode (hex l)).
Proof. rewrite utf8_encode_hex. eauto. Qed.

Ltac encodable :=
  lazymatch goal with
  | |- is_Some (utf8_encode (hex _)) => apply utf8_encode_is_Some_hex
  | |- is_Some (utf8_encode (str_of_int _)) =>
      apply utf8_encode_is_Some_ascii, str_of_int_ascii
  | |- is_Some (utf8_encode (lit _)) =>
      apply utf8_encode_is_Some_ascii; repeat constructor
  | |- is_Some (utf8_encode (_ ++ _)) =>
      apply utf8_encode_is_Some_app; encodable
  | |- _ => assumption
  end.


Lemma create_signature_data_ok (apk_path hmac_signature apk_hash key_type : pystr)
    (w : world) :
  GenerateApkHmac.create_signature_data apk_path hmac_signature apk_hash key_type w
  = (Ok [ (lit "apk_file", JStr (path_name (w_host w) apk_path));
          (lit "apk_path", JStr (path_absolute (w_host w) apk_path));
          (lit "apk_hash", JStr apk_hash);
          (lit "hmac_signature", JStr hmac_signature);
          (lit "key_type", JStr key_type);
          (lit "timestamp", JInt (w_clock w (w_ticks w)));
          (lit "algorithm", JStr (lit "HMAC-SHA256"));
          (lit "hash_algorithm", JStr (lit "SHA-256"));
          (lit "version", JStr (lit "1.0.0")) ],
     snd (time_time w)).
Proof. reflexivity. Qed.



(** Without the [.json] suffix only the tag is written. *)
Example bare_signature_sample :
  w_fs (snd (GenerateApkHmac.main [lit "generate_apk_hmac.py"; lit "app.apk"]
               Sample.apk_world)) !! lit "app_hmac_signature.txt"
  = option_map ascii_bytes
      (digest_then_mac
         (SHA256.hash
            (ascii_bytes
               (lit "Linux_x86_64_buildbox_" ++ hex (map Sample.random (seq 0 32))
                ++ lit "_1700000000")))
         (blit "hello world")).
Proof. vm_compute. reflexivity. Qed.

(** ** Further checks of the model on sample runs *)

(** The two profiles give different tags on the sample input. *)
Example profiles_differ_on_sample :
  digest_then_mac (blit "k1") (blit "hello world")
  = Some (lit "6dd3cd92cfd8a2f5a6065204f83b9bc81a2df56674bf230138f5cdc0a560146d")
  /\ direct_mac (blit "k1") (blit "hello world")
     = lit "aa56fcfbb6994ca294eedce6510881ce28049cd226fa1046e2844ba51492c800".
Proof. split; vm_compute; reflexivity. Qed.

(** A file longer than one chunk is read in several: the first read
    returns 8192 bytes and leaves the rest for the next one. *)
Example two_chunks_sample :
  file_read GenerateApkHmac.chunk_size (repeat x61 (N.to_nat 8200))
  = (repeat x61 (N.to_nat 8192), repeat x61 8).
Proof. vm_compute. reflexivity. Qed.

Example small_chunks_sample :
  GenerateApkHmac.read_chunks 4 SHA256.new (blit "hello world")
  = SHA256.update
      (SHA256.update (SHA256.update SHA256.new (blit "hell")) (blit "o wo"))
      (blit "rld").
Proof. vm_compute. reflexivity. Qed.

(** [generate_secure_signature.py] on a config with the root-detection
    flag set, and on one without it: in the second run the tampering test
    finds nothing to replace and the script exits with status 1 after
    writing the signature. *)
Example secure_signature_run :
  let w := Sample.world_with
             {[ GenerateSecureSignature.config_path := Sample.config_bytes ]} ∅ in
  fst (GenerateSecureSignature.main w) = Ok tt
  /\ w_fs (snd (GenerateSecureSignature.main w))
       !! GenerateSecureSignature.signature_path
     = Some (ascii_bytes
               (direct_mac
                  (SHA256.hash
                     (blit "test_device_12345:com.miaadrajabi.securitysample:SecurityModule:HMAC"))
                  Sample.config_bytes)).
Proof. split; vm_compute; reflexivity. Qed.

Example secure_signature_run_no_flag :
  let w := Sample.world_with
             {[ GenerateSecureSignature.config_path := blit "{}" ]} ∅ in
  exit_status (fst (GenerateSecureSignature.main w)) = 1
  /\ is_Some (w_fs (snd (GenerateSecureSignature.main w))
                !! GenerateSecureSignature.signature_path).
Proof. split; vm_compute; [reflexivity | eexists; reflexivity]. Qed.

Example secure_signature_run_no_config :
  exit_status
    (fst (GenerateSecureSignature.main (Sample.world_with ∅ ∅))) = 1.
Proof. vm_compute. reflexivity. Qed.

(** * Further properties of the scripts *)

(** ** Frames and exits, compositionally *)

Lemma same_files_refl (out : pystr) (w : world) : same_files_except out w w.
Proof. repeat split. Qed.

Lemma same_files_trans (out : pystr) (w1 w2 w3 : world) :
  same_files_except out w1 w2 -> same_files_except out w2 w3 ->
  same_files_except out w1 w3.
Proof.
  intros (Hf1 & He1 & Hh1) (Hf2 & He2 & Hh2). split; [|split]; [|congruence..].
  intros p Hp. rewrite (Hf2 p Hp). apply Hf1, Hp.
Qed.

Lemma frames_ret (out : pystr) {A} (a : A) : frames out (ret a).
Proof. intros w. apply same_files_refl. Qed.

Lemma frames_raise (out : pystr) {A} (e : exn) : frames out (@raise A e).
Proof. intros w. apply same_files_refl. Qed.

Lemma frames_bind (out : pystr) {A B} (c : M A) (k : A -> M B) :
  frames out c -> (forall a, frames out (k a)) -> frames out (bind c k).
Proof.
  intros Hc Hk w. unfold bind. specialize (Hc w).
  destruct (c w) as [[a|e] w1]; cbn [snd] in *; [|exact Hc].
  eapply same_files_trans; [exact Hc | apply Hk].
Qed.

Lemma frames_try_except (out : pystr) {A} (body : M A) (handler : exn -> M A) :
  frames out body -> (forall e, frames out (handler e)) ->
  frames out (try_except body handler).
Proof.
  intros Hb Hh w. unfold try_except. specialize (Hb w).
  destruct (body w) as [[a|[n|p| |]] w1]; cbn [snd] in *; try exact Hb;
    (eapply same_files_trans; [exact Hb | apply Hh]).
Qed.

Lemma frames_encode (out s : pystr) : frames out (encode s).
Proof. intros w. unfold encode. destruct (utf8_encode s); apply same_files_refl. Qed.

Lemma frames_open_rb (out path : pystr) : frames out (open_rb path).
Proof. intros w. unfold open_rb. destruct (w_fs w !! path); apply same_files_refl. Qed.

Lemma frames_time_time (out : pystr) : frames out time_time.
Proof. intros w. repeat split. Qed.

Lemma frames_token_hex (out : pystr) (n : nat) : frames out (token_hex n).
Proof. intros w. repeat split. Qed.

Lemma frames_get_host (out : pystr) : frames out get_host.
Proof. intros w. apply same_files_refl. Qed.

Lemma frames_print (out s : pystr) : frames out (print s).
Proof. intros w. repeat split. Qed.

Lemma frames_print_stderr (out s : pystr) : frames out (print_stderr s).
Proof. intros w. repeat split. Qed.

Lemma frames_os_environ_get (out name : pystr) : frames out (os_environ_get name).
Proof. intros w. apply same_files_refl. Qed.

Lemma frames_write_text (out text : pystr) : frames out (write_text out text).
Proof.
  intros w. unfold write_text.
  destruct (utf8_encode text); cbn [snd]; (split; [|split; reflexivity]);
    intros p Hp; cbn [set_file w_fs]; apply lookup_insert_ne; congruence.
Qed.

Lemma exits_only_ret (codes : Z -> Prop) {A} (a : A) : exits_only codes (ret a).
Proof. intros w n H. discriminate. Qed.




Lemma exits_only_encode (codes : Z -> Prop) (s : pystr) : exits_only codes (encode s).
Proof. intros w n. unfold encode. destruct (utf8_encode s); discriminate. Qed.

Lemma exits_only_open_rb (codes : Z -> Prop) (path : pystr) :
  exits_only codes (open_rb path).
Proof. intros w n. unfold open_rb. destruct (w_fs w !! path); discriminate. Qed.

Lemma exits_only_write_text (codes : Z -> Prop) (path text : pystr) :
  exits_only codes (write_text path text).
Proof. intros w n. unfold write_text. destruct (utf8_encode text); discriminate. Qed.



Create HintDb frames.
Create HintDb exits.

#[local] Hint Resolve frames_ret frames_raise frames_encode frames_open_rb
  frames_time_time frames_token_hex frames_get_host frames_print
  frames_print_stderr frames_os_environ_get frames_write_text : frames.

#[local] Hint Resolve exits_only_ret exits_only_encode exits_only_open_rb
  exits_only_write_text : exits.

Ltac frames :=
  repeat first
    [ apply frames_bind; [|intros ?]
    | apply frames_try_except; [|intros ?]
    | match goal with |- frames _ (if ?b then _ else _) => destruct b end
    | match goal with |- frames _ (match ?x with _ => _ end) => destruct x end
    | solve [auto with frames] ].


(** ** More on [generate_apk_hmac.py] *)

Lemma generate_secure_key_eq (w : world) :
  GenerateApkHmac.generate_secure_key w
  = (match utf8_encode (key_seed w) with
     | Some data => Ok (SHA256.hash data)
     | None => Raise UnicodeEncodeError
     end, after_key w).
Proof.
  unfold GenerateApkHmac.generate_secure_key, bind, get_host, token_hex,
    time_time, encode.
  cbn [w_host w_clock w_ticks w_random w_drawn].
  change (utf8_encode _) with (utf8_encode (key_seed w)).
  destruct (utf8_encode (key_seed w)) as [data|]; [|reflexivity].
  unfold ret. rewrite SHA256Facts.digest_update_new. reflexivity.
Qed.

Lemma key_seed_encodable (w : world) :
  is_Some (utf8_encode (platform_system (w_host w))) ->
  is_Some (utf8_encode (platform_machine (w_host w))) ->
  is_Some (utf8_encode (platform_node (w_host w))) ->
  is_Some (utf8_encode (key_seed w)).
Proof. intros Hs Hm Hn. unfold key_seed. encodable. Qed.

Lemma utf8_encode_app_inv_l (s t : pystr) :
  is_Some (utf8_encode (s ++ t)) -> is_Some (utf8_encode s).
Proof.
  rewrite utf8_encode_app. destruct (utf8_encode s); [eauto|].
  intros [x Hx]. discriminate.
Qed.

Lemma utf8_encode_app_inv_r (s t : pystr) :
  is_Some (utf8_encode (s ++ t)) -> is_Some (utf8_encode t).
Proof.
  rewrite utf8_encode_app. destruct (utf8_encode s), (utf8_encode t); eauto;
    intros [x Hx]; discriminate.
Qed.

(** The key of [generate_secure_key] is the SHA-256 digest, 32 bytes, of
    the UTF-8 text [<system>_<machine>_<node>_<64 hex digits>_<seconds>],
    where the hex digits are 32 fresh random bytes and the seconds one
    reading of the clock; the call consumes exactly these and touches no
    file.  It raises [UnicodeEncodeError] exactly when one of the three
    platform strings has no UTF-8 encoding. *)
Theorem generate_secure_key_spec (w : world) :
  GenerateApkHmac.generate_secure_key w
  = (match utf8_encode (key_seed w) with
     | Some data => Ok (SHA256.hash data)
     | None => Raise UnicodeEncodeError
     end, after_key w)
  /\ (forall data : bytes, length (SHA256.hash data) = 32%nat)
  /\ w_fs (after_key w) = w_fs w
  /\ w_ticks (after_key w) = S (w_ticks w)
  /\ w_drawn (after_key w) = (w_drawn w + 32)%nat
  /\ (is_Some (utf8_encode (key_seed w))
      <-> is_Some (utf8_encode (platform_system (w_host w)))
          /\ is_Some (utf8_encode (platform_machine (w_host w)))
          /\ is_Some (utf8_encode (platform_node (w_host w)))).
Proof.
  split; [apply generate_secure_key_eq|].
  split; [apply SHA256Facts.length_hash|].
  split; [reflexivity|]. split; [reflexivity|]. split; [reflexivity|].
  split.
  - unfold key_seed. intros H.
    apply utf8_encode_app_inv_l in H.
    split; [eapply utf8_encode_app_inv_l; exact H|].
    apply utf8_encode_app_inv_r, utf8_encode_app_inv_r in H.
    split; [eapply utf8_encode_app_inv_l; exact H|].
    apply utf8_encode_app_inv_r, utf8_encode_app_inv_r in H. exact H.
  - intros (Hs & Hm & Hn). apply key_seed_encodable; assumption.
Qed.

(** A missing file makes [calculate_apk_hash] and
    [generate_hmac_signature] raise [FileNotFoundError] for that path
    without any effect; no digest or tag is returned. *)
Theorem hash_and_sign_missing_file (w : world) (apk_path : pystr) (key : bytes) :
  w_fs w !! apk_path = None ->
  GenerateApkHmac.calculate_apk_hash apk_path w
  = (Raise (FileNotFoundError apk_path), w)
  /\ GenerateApkHmac.generate_hmac_signature apk_path key w
     = (Raise (FileNotFoundError apk_path), w).
Proof.
  intros Hf.
  assert (Hh : GenerateApkHmac.calculate_apk_hash apk_path w
               = (Raise (FileNotFoundError apk_path), w)).
  { unfold GenerateApkHmac.calculate_apk_hash. apply bind_raise.
    unfold open_rb. rewrite Hf. reflexivity. }
  split; [exact Hh|].
  unfold GenerateApkHmac.generate_hmac_signature. apply bind_raise, Hh.
Qed.

Lemma hash_and_sign_missing_file_witness :
  GenerateApkHmac.calculate_apk_hash (lit "absent.apk") Sample.apk_world
  = (Raise (FileNotFoundError (lit "absent.apk")), Sample.apk_world)
  /\ GenerateApkHmac.generate_hmac_signature (lit "absent.apk") (blit "k1")
       Sample.apk_world
     = (Raise (FileNotFoundError (lit "absent.apk")), Sample.apk_world).
Proof.
  apply (hash_and_sign_missing_file Sample.apk_world (lit "absent.apk") (blit "k1")).
  vm_compute. reflexivity.
Defined.

(** Without an APK argument, or with a path at which no file exists,
    [main] exits with status 1 and has no effect at all: no key is
    generated, no clock or random byte is consumed, nothing is written. *)
Theorem apk_main_rejects_bad_arguments (argv : list pystr) (w : world) :
  (length argv < 2)%nat \/ w_fs w !! nth 1 argv [] = None ->
  GenerateApkHmac.main argv w = (Raise (SystemExit 1), w).
Proof.
  intros H. unfold GenerateApkHmac.main.
  destruct (Nat.ltb_spec (length argv) 2) as [Hlt|Hge]; [reflexivity|].
  destruct H as [H|H]; [lia|].
  unfold bind, os_path_exists.
  rewrite bool_decide_eq_false_2; [reflexivity|].
  rewrite H. intros [x Hx]. discriminate.
Qed.

Lemma apk_main_rejects_bad_arguments_witness :
  GenerateApkHmac.main [lit "generate_apk_hmac.py"] Sample.apk_world
  = (Raise (SystemExit 1), Sample.apk_world).
Proof.
  apply (apk_main_rejects_bad_arguments [lit "generate_apk_hmac.py"]
           Sample.apk_world).
  left. simpl. lia.
Defined.

(** What [main] does once the arguments are accepted. *)
Lemma apk_main_run (argv : list pystr) (w : world) (data : bytes) :
  (2 <= length argv)%nat ->
  w_fs w !! nth 1 argv [] = Some data ->
  GenerateApkHmac.main argv w
  = match utf8_encode (key_seed w) with
    | None => (Raise (SystemExit 1), after_key w)
    | Some seed =>
        let tag := hex (HMAC.mac (SHA256.hash seed)
                          (ascii_bytes (hex (SHA256.hash data)))) in
        let w2 := snd (time_time (after_key w)) in
        if endswith (output_path_of argv w) (lit ".json")
        then
          (Ok tt,
           set_file (output_path_of argv w)
             (ascii_bytes
                (json_dumps
                   [ (lit "apk_file", JStr (path_name (w_host w) (nth 1 argv [])));
                     (lit "apk_path", JStr (path_absolute (w_host w) (nth 1 argv [])));
                     (lit "apk_hash", JStr (hex (SHA256.hash data)));
                     (lit "hmac_signature", JStr tag);
                     (lit "key_type", JStr (lit "software"));
                     (lit "timestamp", JInt (w_clock w (S (w_ticks w))));
                     (lit "algorithm", JStr (lit "HMAC-SHA256"));
                     (lit "hash_algorithm", JStr (lit "SHA-256"));
                     (lit "version", JStr (lit "1.0.0")) ])) w2)
        else (Ok tt, set_file (output_path_of argv w) (ascii_bytes tag) w2)
    end.
Proof.
  intros Hlen Hf.
  assert (Hf1 : w_fs (after_key w) !! nth 1 argv [] = Some data) by exact Hf.
  unfold GenerateApkHmac.main.
  destruct (Nat.ltb_spec (length argv) 2) as [Hlt|_]; [lia|].
  unfold bind at 1. unfold os_path_exists.
  rewrite bool_decide_eq_true_2 by (rewrite Hf; eauto). cbn [negb].
  assert (Hout : forall k : pystr -> M unit,
            bind (if (3 <=? length argv)%nat then ret (nth 2 argv [])
                  else bind get_host
                         (fun h => ret (path_stem h (nth 1 argv [])
                                        ++ lit "_hmac_signature.txt"))) k w
            = k (output_path_of argv w) w).
  { intros k. unfold output_path_of.
    destruct (3 <=? length argv)%nat; reflexivity. }
  rewrite Hout. unfold try_except.
  pose proof (generate_secure_key_eq w) as Hk.
  destruct (utf8_encode (key_seed w)) as [seed|];
    [|rewrite (bind_raise _ _ _ _ _ Hk); reflexivity].
  rewrite (bind_ok _ _ _ _ _ Hk).
  rewrite (bind_ok _ _ _ _ _ (calculate_apk_hash_ok _ _ _ Hf1)).
  rewrite (bind_ok _ _ _ _ _ (generate_hmac_signature_ok _ _ _ _ Hf1)).
  cbn [fst snd].
  rewrite (bind_ok _ _ _ _ _ (create_signature_data_ok _ _ _ _ _)).
  cbv zeta.
  destruct (endswith (output_path_of argv w) (lit ".json")).
  - unfold GenerateApkHmac.save_signature_data.
    rewrite (write_text_ascii _ _ _ (json_dumps_ascii _)). reflexivity.
  - unfold GenerateApkHmac.save_signature_only.
    rewrite write_text_ascii; [reflexivity|].
    eapply Forall_impl; [apply hex_lower|]. intros c. apply lower_hex_ascii.
Qed.

Lemma apk_main_bad_arguments (argv : list pystr) (w : world) :
  (length argv < 2)%nat \/ w_fs w !! nth 1 argv [] = None ->
  GenerateApkHmac.main argv w = (Raise (SystemExit 1), w).
Proof.
  intros H. unfold GenerateApkHmac.main.
  destruct (Nat.ltb_spec (length argv) 2) as [Hlt|Hge]; [reflexivity|].
  destruct H as [H|H]; [lia|].
  unfold bind, os_path_exists.
  rewrite bool_decide_eq_false_2; [reflexivity|].
  rewrite H. intros [x Hx]. discriminate.
Qed.








(** Whatever the arguments and however the run ends, [main] changes no
    file other than the output file, and leaves the environment alone. *)
Theorem apk_main_writes_only_output (argv : list pystr) (w : world) :
  same_files_except (output_path_of argv w) w
    (snd (GenerateApkHmac.main argv w)).
Proof.
  destruct (Nat.lt_ge_cases (length argv) 2) as [Hlt|Hge].
  { rewrite apk_main_bad_arguments by (left; exact Hlt). apply same_files_refl. }
  destruct (w_fs w !! nth 1 argv []) as [data|] eqn:Hf.
  2: { rewrite apk_main_bad_arguments by (right; exact Hf). apply same_files_refl. }
  rewrite (apk_main_run argv w data Hge Hf).
  destruct (utf8_encode (key_seed w)) as [seed|]; [|repeat split].
  cbv zeta.
  destruct (endswith (output_path_of argv w) (lit ".json")); cbn [snd];
    (split; [|split; reflexivity]);
    intros p Hp; cbn [set_file w_fs time_time after_key snd];
    apply lookup_insert_ne; congruence.
Qed.

(** ** More on [sign_config_hmac.py] *)

(** The two HMAC helpers of the scripts are the same function: RFC 2104
    HMAC over SHA-256 of the data under the key, as 64 lowercase hex
    digits, for every data and every key (also the empty one and keys
    longer than a block). *)
Theorem hmac_helpers_are_hmac_sha256 (data key : bytes) :
  SignConfigHmac.hmac_sha256_hex data key = hex (HMAC.mac key data)
  /\ GenerateSecureSignature.compute_hmac_sha256 data key
     = SignConfigHmac.hmac_sha256_hex data key
  /\ length (SignConfigHmac.hmac_sha256_hex data key) = 64%nat
  /\ Forall (fun c => is_lower_hex c = true)
       (SignConfigHmac.hmac_sha256_hex data key).
Proof.
  split; [apply hmac_hexdigest_new|]. split; [reflexivity|].
  unfold SignConfigHmac.hmac_sha256_hex. rewrite hmac_hexdigest_new.
  split; [rewrite length_hex, length_hmac_mac; reflexivity | apply hex_lower].
Qed.

Lemma main_is_load_then_sign (a : SignConfigHmac.args) :
  SignConfigHmac.main a = bind (SignConfigHmac.load_key a) (sign_with a).
Proof. reflexivity. Qed.


Lemma frames_load_key (out : pystr) (a : SignConfigHmac.args) :
  frames out (SignConfigHmac.load_key a).
Proof. unfold SignConfigHmac.load_key, sys_exit. frames. Qed.

Lemma frames_sign_with (a : SignConfigHmac.args) (key : bytes) :
  frames (default [] (SignConfigHmac.out a)) (sign_with a key).
Proof. unfold sign_with. cbv zeta. frames. Qed.





(** An unreadable config stops the run after the key was loaded:
    [FileNotFoundError] for the config path, exit status 1, nothing
    printed and nothing written. *)
Theorem sign_config_missing_config (a : SignConfigHmac.args) (w : world)
    (k : bytes) :
  SignConfigHmac.load_key a w = (Ok k, w) ->
  w_fs w !! SignConfigHmac.config a = None ->
  SignConfigHmac.main a w = (Raise (FileNotFoundError (SignConfigHmac.config a)), w)
  /\ exit_status (fst (SignConfigHmac.main a w)) = 1.
Proof.
  intros Hk Hf.
  assert (Hmain : SignConfigHmac.main a w
                  = (Raise (FileNotFoundError (SignConfigHmac.config a)), w)).
  { unfold SignConfigHmac.main. rewrite (bind_ok _ _ _ _ _ Hk).
    apply bind_raise. unfold open_rb. rewrite Hf. reflexivity. }
  split; [exact Hmain | rewrite Hmain; reflexivity].
Qed.

Lemma sign_config_missing_config_witness :
  SignConfigHmac.main
    (SignConfigHmac.Args (lit "absent.json") (Some (lit "mysecret")) None None None)
    Sample.config_world
  = (Raise (FileNotFoundError (lit "absent.json")), Sample.config_world)
  /\ exit_status
       (fst (SignConfigHmac.main
               (SignConfigHmac.Args (lit "absent.json") (Some (lit "mysecret"))
                  None None None)
               Sample.config_world)) = 1.
Proof.
  apply (sign_config_missing_config
           (SignConfigHmac.Args (lit "absent.json") (Some (lit "mysecret"))
              None None None)
           Sample.config_world (blit "mysecret")).
  - reflexivity.
  - vm_compute. reflexivity.
Defined.

(** A literal key that has no UTF-8 encoding (a lone surrogate, as an
    undecodable command-line byte becomes) makes the run end with
    [UnicodeEncodeError], exit status 1, before anything is read, printed
    or written. *)
Theorem sign_config_unencodable_key (a : SignConfigHmac.args) (w : world)
    (k : pystr) :
  SignConfigHmac.key a = Some k ->
  utf8_encode k = None ->
  SignConfigHmac.main a w = (Raise UnicodeEncodeError, w)
  /\ exit_status (fst (SignConfigHmac.main a w)) = 1.
Proof.
  intros Hkey Henc.
  assert (Hmain : SignConfigHmac.main a w = (Raise UnicodeEncodeError, w)).
  { unfold SignConfigHmac.main. apply bind_raise.
    unfold SignConfigHmac.load_key, encode. rewrite Hkey, Henc. reflexivity. }
  split; [exact Hmain | rewrite Hmain; reflexivity].
Qed.

Lemma sign_config_unencodable_key_witness :
  SignConfigHmac.main (Sample.args_literal [0x6B; 0xDC80]%N) Sample.config_world
  = (Raise UnicodeEncodeError, Sample.config_world)
  /\ exit_status
       (fst (SignConfigHmac.main (Sample.args_literal [0x6B; 0xDC80]%N)
               Sample.config_world)) = 1.
Proof.
  apply (sign_config_unencodable_key (Sample.args_literal [0x6B; 0xDC80]%N)
           Sample.config_world [0x6B; 0xDC80]%N); reflexivity.
Defined.


(** [main] changes no file other than the [--out] file, never changes
    the environment, and without a non-empty [--out] changes no file at
    all, however the run ends. *)
Theorem sign_config_writes_only_out (a : SignConfigHmac.args) (w : world) :
  same_files_except (default [] (SignConfigHmac.out a)) w
    (snd (SignConfigHmac.main a w))
  /\ (SignConfigHmac.truthy (SignConfigHmac.out a) = false ->
      w_fs (snd (SignConfigHmac.main a w)) = w_fs w).
Proof.
  split.
  - rewrite main_is_load_then_sign.
    apply frames_bind; [apply frames_load_key|].
    intros k. apply frames_sign_with.
  - intros Hout. apply map_eq. intros p.
    assert (Hfr : forall q, frames q (SignConfigHmac.main a)).
    { intros q. rewrite main_is_load_then_sign.
      apply frames_bind; [apply frames_load_key|].
      intros k. unfold sign_with. rewrite Hout. cbv zeta. frames. }
    destruct (Hfr (0%N :: p) w) as (Hfs & _ & _).
    apply Hfs. intros H. apply (f_equal length) in H. simpl in H. lia.
Qed.

Lemma lstrip_all_space (l : bytes) :
  Forall (fun b => is_space b = true) l -> lstrip l = [].
Proof.
  induction 1 as [|b l Hb _ IH]; [reflexivity|]. cbn [lstrip]. rewrite Hb. exact IH.
Qed.

(** A key file that holds nothing but ASCII whitespace (or nothing at all)
    is accepted: the key is the zero-length byte string and the tag under
    that key is what the run prints. *)
Theorem whitespace_key_file_gives_empty_key (a : SignConfigHmac.args)
    (w : world) (path : pystr) (content raw : bytes) :
  SignConfigHmac.key a = None ->
  SignConfigHmac.key_env a = None ->
  SignConfigHmac.key_file a = Some path ->
  w_fs w !! path = Some content ->
  Forall (fun b => is_space b = true) content ->
  w_fs w !! SignConfigHmac.config a = Some raw ->
  SignConfigHmac.truthy (SignConfigHmac.out a) = false ->
  SignConfigHmac.load_key a w = (Ok [], w)
  /\ SignConfigHmac.main a w = print (direct_mac [] raw) w
  /\ exit_status (fst (SignConfigHmac.main a w)) = 0.
Proof.
  intros Hkey Henv Hfile Hf Hsp Hraw Hout.
  pose proof (load_key_file_ok a w path content Hkey Henv Hfile Hf) as Hload.
  assert (Hs : strip content = []).
  { unfold strip. rewrite (lstrip_all_space _ Hsp). reflexivity. }
  rewrite Hs in Hload.
  assert (Hmain : SignConfigHmac.main a w = print (direct_mac [] raw) w).
  { rewrite (main_with_key a w w [] raw Hload Hraw), Hout. reflexivity. }
  split; [exact Hload|]. split; [exact Hmain|]. rewrite Hmain. reflexivity.
Qed.

Lemma whitespace_key_file_gives_empty_key_witness :
  SignConfigHmac.load_key (Sample.args_file (lit "blank.txt")) Sample.config_world
  = (Ok [], Sample.config_world)
  /\ SignConfigHmac.main (Sample.args_file (lit "blank.txt")) Sample.config_world
     = print (direct_mac [] Sample.config_bytes) Sample.config_world
  /\ exit_status
       (fst (SignConfigHmac.main (Sample.args_file (lit "blank.txt"))
               Sample.config_world)) = 0.
Proof.
  apply (whitespace_key_file_gives_empty_key
           (Sample.args_file (lit "blank.txt")) Sample.config_world
           (lit "blank.txt") [x0a] Sample.config_bytes eq_refl eq_refl eq_refl).
  - vm_compute. reflexivity.
  - repeat constructor.
  - vm_compute. reflexivity.
  - reflexivity.
Defined.

(** ** More on [generate_secure_signature.py] *)








(** Without the config file [main] exits with status 1 and writes no
    signature. *)
Theorem secure_signature_missing_config (w : world) :
  w_fs w !! GenerateSecureSignature.config_path = None ->
  GenerateSecureSignature.main w = (Raise (SystemExit 1), w).
Proof.
  intros Hf. unfold GenerateSecureSignature.main, try_except.
  rewrite (bind_raise _ _ w w (FileNotFoundError GenerateSecureSignature.config_path));
    [reflexivity|].
  unfold open_rb. rewrite Hf. reflexivity.
Qed.

Lemma secure_signature_missing_config_witness :
  GenerateSecureSignature.main (Sample.world_with ∅ ∅)
  = (Raise (SystemExit 1), Sample.world_with ∅ ∅).
Proof.
  apply (secure_signature_missing_config (Sample.world_with ∅ ∅)).
  vm_compute. reflexivity.
Defined.





(** ** The read loop, chunk by chunk *)

Lemma chunks_spec (size : nat) (data : bytes) :
  (0 < size)%nat ->
  concat (chunks size data) = data
  /\ Forall (fun c => (0 < length c <= size)%nat) (chunks size data)
  /\ Forall (fun c => length c = size) (removelast (chunks size data)).
Proof.
  intros Hsize. funelim (chunks size data).
  - match goal with H : firstn _ _ = [] |- _ =>
      apply firstn_nil_inv in H; [subst rest | assumption] end.
    repeat split; constructor.
  - match goal with IH : (0 < _)%nat -> _ |- _ =>
      destruct (IH Hsize) as (Hcat & Hall & Hfull) end.
    match goal with H : firstn _ _ = _ :: _ |- _ => rename H into Hc end.
    split; [|split].
    + cbn [concat]. rewrite Hcat, <- Hc. apply firstn_skipn.
    + constructor; [|exact Hall].
      rewrite <- Hc. split; [rewrite Hc; simpl; lia | apply firstn_le_length].
    + destruct (chunks size (skipn size rest)) as [|c cs] eqn:Hcs;
        [constructor|].
      change (removelast ((b :: chunk) :: c :: cs))
        with ((b :: chunk) :: removelast (c :: cs)).
      constructor; [|exact Hfull].
      rewrite <- Hc.
      assert (Hrest : (size < length rest)%nat).
      { destruct (Nat.lt_ge_cases size (length rest)) as [Hlt|Hge]; [exact Hlt|].
        rewrite skipn_all2 in Hcat by exact Hge.
        cbn [concat] in Hcat.
        inversion Hall as [|? ? [Hpos _] _]; subst.
        apply (f_equal length) in Hcat. rewrite length_app in Hcat.
        simpl in Hcat. lia. }
      rewrite length_firstn. lia.
Qed.

Lemma read_chunks_stop (size : nat) (o : SHA256.obj) (rest : bytes) :
  firstn size rest = [] -> GenerateApkHmac.read_chunks size o rest = o.
Proof.
  intros H. funelim (GenerateApkHmac.read_chunks size o rest); [reflexivity|].
  congruence.
Qed.

Lemma read_chunks_step (size : nat) (o : SHA256.obj) (rest : bytes)
    (b : byte) (c : bytes) :
  firstn size rest = b :: c ->
  GenerateApkHmac.read_chunks size o rest
  = GenerateApkHmac.read_chunks size (SHA256.update o (b :: c)) (skipn size rest).
Proof.
  intros H. funelim (GenerateApkHmac.read_chunks size o rest); congruence.
Qed.

Lemma chunks_stop (size : nat) (rest : bytes) :
  firstn size rest = [] -> chunks size rest = [].
Proof.
  intros H. funelim (chunks size rest); [reflexivity | congruence].
Qed.

Lemma chunks_step (size : nat) (rest : bytes) (b : byte) (c : bytes) :
  firstn size rest = b :: c ->
  chunks size rest = (b :: c) :: chunks size (skipn size rest).
Proof.
  intros H. funelim (chunks size rest); congruence.
Qed.

Lemma read_chunks_fold (size : nat) (data : bytes) :
  forall o : SHA256.obj,
    GenerateApkHmac.read_chunks size o data
    = fold_left SHA256.update (chunks size data) o.
Proof.
  induction data as [data IH] using (induction_ltof1 _ (@length byte)).
  unfold ltof in IH. intros o.
  destruct (firstn size data) as [|b c] eqn:Hc.
  - rewrite (read_chunks_stop _ _ _ Hc), (chunks_stop _ _ Hc). reflexivity.
  - rewrite (read_chunks_step _ _ _ _ _ Hc), (chunks_step _ _ _ _ Hc).
    cbn [fold_left]. apply IH.
    destruct size as [|size]; [discriminate|].
    destruct data as [|x data]; [discriminate|].
    rewrite length_skipn. simpl. lia.
Qed.

(** The read loop of [calculate_apk_hash] feeds the hash object the file
    in order, in chunks that are never empty and never longer than the chunk
    size, all but the last of exactly that size: the digest is that of one
    [update] per chunk. *)
Theorem read_loop_updates_per_chunk (size : nat) (data : bytes) :
  (0 < size)%nat ->
  GenerateApkHmac.read_chunks size SHA256.new data
  = fold_left SHA256.update (chunks size data) SHA256.new
  /\ concat (chunks size data) = data
  /\ Forall (fun c => (0 < length c <= size)%nat) (chunks size data)
  /\ Forall (fun c => length c = size) (removelast (chunks size data)).
Proof.
  intros Hsize. split; [apply read_chunks_fold|]. apply chunks_spec, Hsize.
Qed.

Lemma read_loop_updates_per_chunk_witness :
  GenerateApkHmac.read_chunks 4 SHA256.new (blit "hello world")
  = fold_left SHA256.update (chunks 4 (blit "hello world")) SHA256.new
  /\ concat (chunks 4 (blit "hello world")) = blit "hello world"
  /\ Forall (fun c => (0 < length c <= 4)%nat) (chunks 4 (blit "hello world"))
  /\ Forall (fun c => length c = 4%nat) (removelast (chunks 4 (blit "hello world"))).
Proof.
  apply (read_loop_updates_per_chunk 4 (blit "hello world")). lia.
Defined.

Example chunks_sample :
  chunks 4 (blit "hello world") = [blit "hell"; blit "o wo"; blit "rld"].
Proof. vm_compute. reflexivity. Qed.

(** ** Writing the structured record *)

